(** * Decryptc: the asset-to-report pipeline and its controller

    A shallow embedding of [services/geminiService.ts] (the input
    normalizer and the report requester of [analyzeAsset]) and of the
    handlers of [App.tsx] (the application state controller), followed by
    the properties the specification states about them.

    Conventions of the embedding:
    - a JavaScript string is a [string], the bytes of its UTF-8 encoding;
    - a JavaScript number is an integer ([Z] or [N]): status codes, byte
      sizes, delays and attempt counters are integers in the source;
    - a value of type [any] (a thrown error, the result of [JSON.parse]) is
      a [jsval];
    - code that may throw returns a [completion];
    - what the code does to the outside world (file reads, requests, timers,
      console output) is recorded, in order, in a list of [effect]s. *)

From Stdlib Require Import String Ascii List ZArith NArith Bool Lia DecimalString.
From Equations.Prop Require Import Equations Logic.

Set Warnings "-register-all".
Import ListNotations.

Local Open Scope list_scope.
Local Open Scope string_scope.

(** ** Strings *)

Module Str.

(** [s.startsWith(p)] *)
Definition startsWith (s p : string) : bool := String.prefix p s.

(** [s.includes(p)] *)
Fixpoint includes (s p : string) : bool :=
  String.prefix p s ||
  match s with
  | EmptyString => false
  | String _ s' => includes s' p
  end.

(** [s.endsWith(p)] *)
Fixpoint endsWith (s p : string) : bool :=
  String.eqb s p ||
  match s with
  | EmptyString => false
  | String _ s' => endsWith s' p
  end.

(** [s.split(sep)] for a one-character separator: the pieces between
    the occurrences of [sep], at least one piece. *)
Fixpoint split (sep : ascii) (s : string) : list string :=
  match s with
  | EmptyString => [EmptyString]
  | String c s' =>
      if Ascii.eqb c sep then EmptyString :: split sep s'
      else match split sep s' with
           | [] => [String c EmptyString]
           | piece :: pieces => String c piece :: pieces
           end
  end.

(** [xs.join(sep)] *)
Fixpoint join (sep : string) (xs : list string) : string :=
  match xs with
  | [] => ""
  | [x] => x
  | x :: rest => x ++ sep ++ join sep rest
  end.

(** Decimal notation of a non-negative integer, as [`${n}`] prints it
    (below 10^21, where JavaScript switches to exponent notation). *)
Definition ofN (n : N) : string := NilZero.string_of_uint (N.to_uint n).

(** Decimal notation of an integer. *)
Definition ofZ (z : Z) : string :=
  match z with
  | Z0 => "0"
  | Zpos p => ofN (Npos p)
  | Zneg p => "-" ++ ofN (Npos p)
  end.

End Str.

(** ** JavaScript values *)

(** The values the code handles at type [any].  An object is the list of
    its own enumerable properties in insertion order.  An [Error]
    instance has, besides those, a [name] (of its prototype) and an own
    [message] that is not enumerable. *)
Inductive jsval : Type :=
| JUndefined
| JNull
| JBool (b : bool)
| JNum (n : Z)
| JStr (s : string)
| JArr (items : list jsval)
| JObj (props : list (string * jsval))
| JError (name message : string) (props : list (string * jsval)).

(** The outcome of code that returns or throws. *)
Inductive completion (A : Type) : Type :=
| Return (a : A)
| Throw (e : jsval).
Arguments Return {A} a.
Arguments Throw {A} e.

Definition bind {A B} (c : completion A) (k : A -> completion B) : completion B :=
  match c with
  | Return a => k a
  | Throw e => Throw e
  end.

Notation "x <- c ;; k" := (bind c (fun x => k))
  (at level 61, c at next level, right associativity).

Module JS.

(** ToBoolean: [undefined], [null], [false], [0] and [""] are falsy. *)
Definition truthy (v : jsval) : bool :=
  match v with
  | JUndefined | JNull => false
  | JBool b => b
  | JNum n => negb (Z.eqb n 0)
  | JStr s => negb (String.eqb s "")
  | JArr _ | JObj _ | JError _ _ _ => true
  end.

(** [a || b] *)
Definition or (a b : jsval) : jsval := if truthy a then a else b.

(** [a || b || ...]: the first truthy value, else the last one. *)
Fixpoint firstTruthy (vs : list jsval) : jsval :=
  match vs with
  | [] => JUndefined
  | [v] => v
  | v :: rest => if truthy v then v else firstTruthy rest
  end.

(** [v === 429] and [v === 'RESOURCE_EXHAUSTED']: strict equality with a
    number and with a string. *)
Definition strictEqNum (v : jsval) (n : Z) : bool :=
  match v with JNum m => Z.eqb m n | _ => false end.

Definition strictEqStr (v : jsval) (s : string) : bool :=
  match v with JStr t => String.eqb t s | _ => false end.

Fixpoint lookup (k : string) (props : list (string * jsval)) : jsval :=
  match props with
  | [] => JUndefined
  | (k', v) :: rest => if String.eqb k' k then v else lookup k rest
  end.

Definition nullish (v : jsval) : bool :=
  match v with JUndefined | JNull => true | _ => false end.

(** The TypeError of reading a property of [undefined] or [null], with
    the wording of V8. *)
Definition TypeError_read (v : jsval) (k : string) : jsval :=
  JError "TypeError"
    ("Cannot read properties of "
       ++ (match v with JNull => "null" | _ => "undefined" end)
       ++ " (reading '" ++ k ++ "')") [].

(** [v.k], for the property names this program reads ([status], [code],
    [error], [message] and the report's fields): a primitive and an array
    have none of them, an [Error] instance has its [message]. *)
Definition get (v : jsval) (k : string) : completion jsval :=
  match v with
  | JUndefined | JNull => Throw (TypeError_read v k)
  | JObj props => Return (lookup k props)
  | JError _ message props =>
      if String.eqb k "message" then Return (JStr message)
      else Return (lookup k props)
  | JBool _ | JNum _ | JStr _ | JArr _ => Return JUndefined
  end.

(** [v?.k] *)
Definition getOpt (v : jsval) (k : string) : jsval :=
  match get v k with
  | Return x => x
  | Throw _ => JUndefined
  end.

(** [new Error(message)] *)
Definition Error (message : string) : jsval := JError "Error" message [].

End JS.

(** ** [JSON.stringify] *)

Module JSON.

Definition hexDigit (n : N) : ascii :=
  match n with
  | 0 => "0" | 1 => "1" | 2 => "2" | 3 => "3" | 4 => "4" | 5 => "5"
  | 6 => "6" | 7 => "7" | 8 => "8" | 9 => "9" | 10 => "a" | 11 => "b"
  | 12 => "c" | 13 => "d" | 14 => "e" | _ => "f"
  end%N%char.

(** One character of a string literal: the quote and the backslash are
    escaped, and so are the control characters. *)
Definition escapeChar (c : ascii) : string :=
  let n := N_of_ascii c in
  if N.eqb n 34 then "\" ++ String c ""
  else if N.eqb n 92 then "\\"
  else if N.eqb n 8 then "\b"
  else if N.eqb n 12 then "\f"
  else if N.eqb n 10 then "\n"
  else if N.eqb n 13 then "\r"
  else if N.eqb n 9 then "\t"
  else if N.ltb n 32 then
    "\u00" ++ String (hexDigit (N.div n 16)) (String (hexDigit (N.modulo n 16)) "")
  else String c "".

Fixpoint escape (s : string) : string :=
  match s with
  | EmptyString => ""
  | String c s' => escapeChar c ++ escape s'
  end.

Definition quote (s : string) : string :=
  String "034"%char (escape s ++ String "034"%char "").

(** [JSON.stringify(v)]; [None] is the result [undefined].  In an array
    [undefined] prints as [null], in an object a property whose value is
    [undefined] is left out. *)
Fixpoint stringify (v : jsval) : option string :=
  let member (p : string * jsval) : list string :=
    match stringify (snd p) with
    | Some s => [quote (fst p) ++ ":" ++ s]
    | None => []
    end in
  match v with
  | JUndefined => None
  | JNull => Some "null"
  | JBool true => Some "true"
  | JBool false => Some "false"
  | JNum n => Some (Str.ofZ n)
  | JStr s => Some (quote s)
  | JArr items =>
      Some ("[" ++ Str.join ","
              (map (fun x => match stringify x with
                             | Some s => s
                             | None => "null"
                             end) items) ++ "]")
  | JObj props | JError _ _ props =>
      Some ("{" ++ Str.join "," (flat_map member props) ++ "}")
  end.

Definition stringifyVal (v : jsval) : jsval :=
  match stringify v with
  | Some s => JStr s
  | None => JUndefined
  end.

(** *** A reference [JSON.parse]

    The requester below is stated for every [JSON.parse]; this one reads
    the JSON grammar with integer numerals (a numeral with a fraction or an
    exponent is outside the number model and is refused) and serves to run
    the requester on concrete response texts.  The message of the
    [SyntaxError] a refused text gets is the engine's own wording, which
    may quote the text: the parser takes it as a parameter. *)

Definition isWs (c : ascii) : bool :=
  let n := N_of_ascii c in
  N.eqb n 32 || N.eqb n 9 || N.eqb n 10 || N.eqb n 13.

Fixpoint skipWs (s : string) : string :=
  match s with
  | String c s' => if isWs c then skipWs s' else s
  | EmptyString => s
  end.

Definition hexVal (c : ascii) : option N :=
  let n := N_of_ascii c in
  if N.leb 48 n && N.leb n 57 then Some (n - 48)%N
  else if N.leb 97 n && N.leb n 102 then Some (n - 87)%N
  else if N.leb 65 n && N.leb n 70 then Some (n - 55)%N
  else None.

(** UTF-8 of a code point of the basic plane. *)
Definition utf8 (cp : N) : string :=
  if N.ltb cp 128 then String (ascii_of_N cp) ""
  else if N.ltb cp 2048 then
    String (ascii_of_N (192 + cp / 64))
      (String (ascii_of_N (128 + cp mod 64)) "")
  else
    String (ascii_of_N (224 + cp / 4096))
      (String (ascii_of_N (128 + (cp / 64) mod 64))
         (String (ascii_of_N (128 + cp mod 64)) "")).

(** The characters of a string literal after its opening quote, and what
    follows the closing quote. *)
Fixpoint parseString (s : string) : option (string * string) :=
  match s with
  | EmptyString => None
  | String c rest =>
      let n := N_of_ascii c in
      if N.eqb n 34 then Some ("", rest)
      else if N.eqb n 92 then
        match rest with
        | String e rest1 =>
            let plain (x : N) :=
              match parseString rest1 with
              | Some (str, tl) => Some (String (ascii_of_N x) str, tl)
              | None => None
              end in
            let m := N_of_ascii e in
            if N.eqb m 34 then plain 34%N
            else if N.eqb m 92 then plain 92%N
            else if N.eqb m 47 then plain 47%N
            else if N.eqb m 98 then plain 8%N
            else if N.eqb m 102 then plain 12%N
            else if N.eqb m 110 then plain 10%N
            else if N.eqb m 114 then plain 13%N
            else if N.eqb m 116 then plain 9%N
            else if N.eqb m 117 then
              match rest1 with
              | String h1 (String h2 (String h3 (String h4 rest2))) =>
                  match hexVal h1, hexVal h2, hexVal h3, hexVal h4,
                        parseString rest2 with
                  | Some a, Some b, Some c', Some d, Some (str, tl) =>
                      Some (utf8 (a * 4096 + b * 256 + c' * 16 + d) ++ str, tl)
                  | _, _, _, _, _ => None
                  end
              | _ => None
              end
            else None
        | EmptyString => None
        end
      else if N.ltb n 32 then None
      else
        match parseString rest with
        | Some (str, tl) => Some (String c str, tl)
        | None => None
        end
  end.

Definition isDigit (c : ascii) : bool :=
  let n := N_of_ascii c in N.leb 48 n && N.leb n 57.

Fixpoint parseDigits (acc : N) (s : string) : N * string :=
  match s with
  | String c s' =>
      if isDigit c then parseDigits (acc * 10 + (N_of_ascii c - 48)) s'
      else (acc, s)
  | EmptyString => (acc, s)
  end.

(** A numeral without its sign: [0], or digits that do not start with
    [0]; nothing of a fraction or an exponent may follow. *)
Definition parseNat (s : string) : option (N * string) :=
  match s with
  | String c s' =>
      if isDigit c then
        let r := if Ascii.eqb c "0" then (0%N, s') else parseDigits 0 s in
        match snd r with
        | String d _ =>
            if Ascii.eqb d "." || Ascii.eqb d "e" || Ascii.eqb d "E"
            then None else Some r
        | EmptyString => Some r
        end
      else None
  | EmptyString => None
  end.

(** [obj[k] = v]: a repeated name keeps its place and takes the later
    value. *)
Fixpoint setProp (k : string) (v : jsval) (props : list (string * jsval))
  : list (string * jsval) :=
  match props with
  | [] => [(k, v)]
  | (k', v') :: rest =>
      if String.eqb k' k then (k, v) :: rest else (k', v') :: setProp k v rest
  end.

Definition literal (word : string) (v : jsval) (s : string)
  : option (jsval * string) :=
  if String.prefix word s
  then Some (v, substring (String.length word) (String.length s - String.length word) s)
  else None.

(** A value at the head of [s], and the rest of [s]. *)
Fixpoint parseValue (fuel : nat) (s : string) : option (jsval * string) :=
  match fuel with
  | O => None
  | S fuel =>
      match skipWs s with
      | EmptyString => None
      | String c rest =>
          let n := N_of_ascii c in
          if N.eqb n 123 then
            match skipWs rest with
            | String c' rest' =>
                if N.eqb (N_of_ascii c') 125 then Some (JObj [], rest')
                else parseMembers fuel (String c' rest') []
            | EmptyString => None
            end
          else if N.eqb n 91 then
            match skipWs rest with
            | String c' rest' =>
                if N.eqb (N_of_ascii c') 93 then Some (JArr [], rest')
                else parseElements fuel (String c' rest') []
            | EmptyString => None
            end
          else if N.eqb n 34 then
            match parseString rest with
            | Some (str, tl) => Some (JStr str, tl)
            | None => None
            end
          else if N.eqb n 45 then
            match parseNat rest with
            | Some (m, tl) => Some (JNum (- Z.of_N m), tl)
            | None => None
            end
          else if isDigit c then
            match parseNat (String c rest) with
            | Some (m, tl) => Some (JNum (Z.of_N m), tl)
            | None => None
            end
          else if N.eqb n 116 then literal "true" (JBool true) (String c rest)
          else if N.eqb n 102 then literal "false" (JBool false) (String c rest)
          else if N.eqb n 110 then literal "null" JNull (String c rest)
          else None
      end
  end

with parseMembers (fuel : nat) (s : string) (acc : list (string * jsval))
  : option (jsval * string) :=
  match fuel with
  | O => None
  | S fuel =>
      match skipWs s with
      | String q rest =>
          if N.eqb (N_of_ascii q) 34 then
            match parseString rest with
            | Some (k, tl) =>
                match skipWs tl with
                | String colon tl1 =>
                    if N.eqb (N_of_ascii colon) 58 then
                      match parseValue fuel tl1 with
                      | Some (v, tl2) =>
                          match skipWs tl2 with
                          | String d tl3 =>
                              if N.eqb (N_of_ascii d) 44
                              then parseMembers fuel tl3 (setProp k v acc)
                              else if N.eqb (N_of_ascii d) 125
                              then Some (JObj (setProp k v acc), tl3)
                              else None
                          | EmptyString => None
                          end
                      | None => None
                      end
                    else None
                | EmptyString => None
                end
            | None => None
            end
          else None
      | EmptyString => None
      end
  end

with parseElements (fuel : nat) (s : string) (acc : list jsval)
  : option (jsval * string) :=
  match fuel with
  | O => None
  | S fuel =>
      match parseValue fuel s with
      | Some (v, tl) =>
          match skipWs tl with
          | String d tl1 =>
              if N.eqb (N_of_ascii d) 44
              then parseElements fuel tl1 (acc ++ [v])%list
              else if N.eqb (N_of_ascii d) 93
              then Some (JArr (acc ++ [v])%list, tl1)
              else None
          | EmptyString => None
          end
      | None => None
      end
  end.

(** The error [JSON.parse] throws, with the message of the engine. *)
Definition SyntaxError (message : string) : jsval :=
  JError "SyntaxError" message [].

(** [JSON.parse(text)] in an engine that words the refusal of a text [t]
    as [message t]: one value, blanks around it, nothing else.  The fuel
    is one more than the length of the text: the parser reads at least one
    character between two calls. *)
Definition parseWith (message : string -> string) (text : string)
  : completion jsval :=
  match parseValue (S (String.length text)) text with
  | Some (v, rest) =>
      match skipWs rest with
      | EmptyString => Return v
      | String _ _ => Throw (SyntaxError (message text))
      end
  | None => Throw (SyntaxError (message text))
  end.

(** The wording of an engine that names the first character of the text
    it refuses and quotes the text, as V8 does for a text of at most
    twenty characters whose first character starts no JSON value:
    [Unexpected token 'q', ... is not valid JSON], with the text in double
    quotes at the dots. *)
Definition quoted (text : string) : string :=
  match text with
  | EmptyString => "Unexpected end of JSON input"
  | String c _ =>
      "Unexpected token '" ++ String c "', "
        ++ String "034" text ++ String "034" " is not valid JSON"
  end.

(** The parser of the examples: [parseWith] in an engine of this wording.
    What is proved of the requester is proved for every parser, and so for
    every wording. *)
Definition parse : string -> completion jsval := parseWith quoted.

End JSON.

(** ** The browser's [File] and [FileReader] *)

Module Web.

(** A [File]: its name, declared MIME type and byte length as the browser
    reports them, and what reading it yields: the bytes, or [None] when the
    read fails. *)
Record File : Type := mkFile {
  name : string;
  type : string;
  size : N;
  bytes : option (list Byte.byte)
}.

Definition base64Alphabet : string :=
  "ABCDEFGHIJKLMNOPQRSTUVWXYZabcdefghijklmnopqrstuvwxyz0123456789+/".

Definition base64Char (n : N) : ascii :=
  match String.get (N.to_nat n) base64Alphabet with
  | Some c => c
  | None => "="%char
  end.

(** Base64 of a byte sequence (RFC 4648, with padding). *)
Fixpoint base64 (bs : list Byte.byte) : string :=
  match bs with
  | [] => ""
  | [a] =>
      let n := (Byte.to_N a * 65536)%N in
      String (base64Char (n / 262144))
        (String (base64Char ((n / 4096) mod 64)) "==")
  | [a; b] =>
      let n := (Byte.to_N a * 65536 + Byte.to_N b * 256)%N in
      String (base64Char (n / 262144))
        (String (base64Char ((n / 4096) mod 64))
           (String (base64Char ((n / 64) mod 64)) "="))
  | a :: b :: c :: rest =>
      let n := (Byte.to_N a * 65536 + Byte.to_N b * 256 + Byte.to_N c)%N in
      String (base64Char (n / 262144))
        (String (base64Char ((n / 4096) mod 64))
           (String (base64Char ((n / 64) mod 64))
              (String (base64Char (n mod 64)) (base64 rest))))
  end.

(** The result of [readAsDataURL] on a file of a declared type whose
    bytes are [bs]. *)
Definition dataURL (f : File) (bs : list Byte.byte) : string :=
  "data:" ++ type f ++ ";base64," ++ base64 bs.

(** *** [readAsText]

    [reader.readAsText(file)], called without an encoding, decodes the
    bytes as the Encoding Standard's decode does with UTF-8 for fallback:
    a byte order mark selects UTF-8, UTF-16BE or UTF-16LE and is dropped,
    and every ill-formed sequence is replaced by U+FFFD.  A string of the
    program is kept here as the UTF-8 encoding of its text, so a
    well-formed UTF-8 sequence is copied as it is and U+FFFD is the three
    bytes EF BF BD.  A charset named in the type of the file is not looked
    at; the types a file picker reports name none. *)

Definition replacement : list N := [239; 191; 189]%N.

Definition within (lower upper b : N) : bool :=
  N.leb lower b && N.leb b upper.

(** The state of the UTF-8 decoder between two bytes: the continuation
    bytes still needed, the bounds of the next byte, and the bytes seen of
    the open sequence. *)
Record utf8State : Type := mkUtf8 {
  needed : nat;
  lower : N;
  upper : N;
  seen : list N
}.

Definition utf8Start : utf8State := mkUtf8 0 128 191 [].

(** A byte read while no sequence is open: what is written, and the state
    after it. *)
Definition utf8Lead (b : N) : list N * utf8State :=
  if N.leb b 127 then ([b], utf8Start)
  else if within 194 223 b then ([], mkUtf8 1 128 191 [b])
  else if within 224 239 b then
    ([], mkUtf8 2 (if N.eqb b 224 then 160 else 128)
                  (if N.eqb b 237 then 159 else 191) [b])
  else if within 240 244 b then
    ([], mkUtf8 3 (if N.eqb b 240 then 144 else 128)
                  (if N.eqb b 244 then 143 else 191) [b])
  else (replacement, utf8Start).

(** The UTF-8 decoder.  A byte outside the bounds ends the open sequence
    with U+FFFD and is read again with no sequence open; so does the end
    of the bytes. *)
Fixpoint utf8 (s : utf8State) (bs : list N) : list N :=
  match bs with
  | [] => match needed s with 0 => [] | S _ => replacement end
  | b :: rest =>
      match needed s with
      | 0 => let (out, s') := utf8Lead b in (out ++ utf8 s' rest)%list
      | S n =>
          if within (lower s) (upper s) b then
            match n with
            | 0 => (seen s ++ b :: utf8 utf8Start rest)%list
            | S _ => utf8 (mkUtf8 n 128 191 (seen s ++ [b])%list) rest
            end
          else
            let (out, s') := utf8Lead b in
            (replacement ++ out ++ utf8 s' rest)%list
      end
  end.

(** The UTF-8 encoding of a code point. *)
Definition utf8Encode (cp : N) : list N :=
  if N.ltb cp 128 then [cp]
  else if N.ltb cp 2048 then [192 + cp / 64; 128 + cp mod 64]%N
  else if N.ltb cp 65536 then
    [224 + cp / 4096; 128 + (cp / 64) mod 64; 128 + cp mod 64]%N
  else
    [240 + cp / 262144; 128 + (cp / 4096) mod 64; 128 + (cp / 64) mod 64;
     128 + cp mod 64]%N.

(** A UTF-16 code unit read while no lead surrogate is held: what is
    written, and the lead surrogate held after it. *)
Definition utf16Unit (cu : N) : list N * option N :=
  if within 55296 56319 cu then ([], Some cu)
  else if within 56320 57343 cu then (replacement, None)
  else (utf8Encode cu, None).

(** The UTF-16 decoder, big-endian or little-endian.  A lead surrogate
    that no trail surrogate follows becomes U+FFFD and the code unit after
    it is read again; a byte or a lead surrogate left over at the end
    becomes U+FFFD. *)
Fixpoint utf16 (be : bool) (lead : option N) (bs : list N) : list N :=
  match bs with
  | b1 :: b2 :: rest =>
      let cu := (if be then b1 * 256 + b2 else b2 * 256 + b1)%N in
      match lead with
      | Some ls =>
          if within 56320 57343 cu then
            (utf8Encode (65536 + (ls - 55296) * 1024 + (cu - 56320))
               ++ utf16 be None rest)%list
          else
            let (out, lead') := utf16Unit cu in
            (replacement ++ out ++ utf16 be lead' rest)%list
      | None =>
          let (out, lead') := utf16Unit cu in
          (out ++ utf16 be lead' rest)%list
      end
  | [_] => replacement
  | [] => match lead with Some _ => replacement | None => [] end
  end.

(** [bs] without the prefix [p], when it starts with [p]. *)
Fixpoint stripPrefix (p bs : list N) : option (list N) :=
  match p, bs with
  | [], _ => Some bs
  | a :: p', b :: bs' => if N.eqb a b then stripPrefix p' bs' else None
  | _ :: _, [] => None
  end.

Definition decode (bs : list N) : list N :=
  match stripPrefix [239; 187; 191]%N bs with
  | Some rest => utf8 utf8Start rest
  | None =>
      match stripPrefix [254; 255]%N bs with
      | Some rest => utf16 true None rest
      | None =>
          match stripPrefix [255; 254]%N bs with
          | Some rest => utf16 false None rest
          | None => utf8 utf8Start bs
          end
      end
  end.

(** The result of [readAsText] on a file whose bytes are [bs]. *)
Definition text (bs : list Byte.byte) : string :=
  string_of_list_ascii (map ascii_of_N (decode (map Byte.to_N bs))).

(** The event a [FileReader] hands to [onerror]. *)
Definition readError : jsval := JObj [("type", JStr "error")].

End Web.

(** ** Effects *)

(** One part of the request's content. [data] is [None] when the code
    passes [undefined]. *)
Inductive part : Type :=
| TextPart (text : string)
| InlineData (mimeType : string) (data : option string).

(** What [analyzeAsset] does to the outside world. *)
Inductive effect : Type :=
| ReadAsText (f : Web.File)
| ReadAsDataURL (f : Web.File)
| GenerateContent (parts : list part)
| Sleep (ms : N)
| ConsoleWarn (msg : string)
| ConsoleError (e : jsval).

(** Code that acts on the world and then returns or throws. *)
Definition io (A : Type) : Type := list effect * completion A.

Definition ioRet {A} (a : A) : io A := ([], Return a).
Definition ioThrow {A} (e : jsval) : io A := ([], Throw e).
Definition ioDo (e : effect) : io unit := ([e], Return tt).

Definition ioBind {A B} (m : io A) (k : A -> io B) : io B :=
  match snd m with
  | Return a => ((fst m ++ fst (k a))%list, snd (k a))
  | Throw e => (fst m, Throw e)
  end.

Notation "x <~ m ;; k" := (ioBind m (fun x => k))
  (at level 61, m at next level, right associativity).
Notation "m ;;; k" := (ioBind m (fun _ => k))
  (at level 61, right associativity).

Definition requests (tr : list effect) : list (list part) :=
  flat_map (fun e => match e with GenerateContent ps => [ps] | _ => [] end) tr.

Definition sleeps (tr : list effect) : list N :=
  flat_map (fun e => match e with Sleep ms => [ms] | _ => [] end) tr.

(** ** [services/geminiService.ts] *)

Module GeminiService.

(** The argument of [analyzeAsset], of type [File | string]. *)
Inductive input : Type :=
| Url (url : string)
| FileInput (f : Web.File).

(** What one call of [ai.models.generateContent] comes to: the promise
    rejects with a value, or resolves to a response whose [text] is a
    string or [undefined]. *)
Inductive response : Type :=
| Rejects (e : jsval)
| Responds (text : option string).

Definition nl : string := String "010"%char "".

Definition isSupportedMimeType (mime : string) : bool :=
  String.eqb mime "application/pdf"
  || Str.startsWith mime "image/"
  || Str.startsWith mime "video/".

(** [fileToBase64]: the data URL of the file, cut at its commas, second
    piece. *)
Definition fileToBase64 (file : Web.File) : io (option string) :=
  ioDo (ReadAsDataURL file) ;;;
  match Web.bytes file with
  | Some bs => ioRet (nth_error (Str.split ","%char (Web.dataURL file bs)) 1)
  | None => ioThrow Web.readError
  end.

Definition fileToText (file : Web.File) : io string :=
  ioDo (ReadAsText file) ;;;
  match Web.bytes file with
  | Some bs => ioRet (Web.text bs)
  | None => ioThrow Web.readError
  end.

(** The test of the first branch of the file case. *)
Definition isTextLike (f : Web.File) : bool :=
  Str.startsWith (Web.type f) "text/"
  || Str.endsWith (Web.name f) ".txt"
  || Str.endsWith (Web.name f) ".md"
  || Str.endsWith (Web.name f) ".csv"
  || Str.endsWith (Web.name f) ".json".

Definition urlPrompt (url : string) : string :=
  "Analyze this URL for piracy and authenticity risks: " ++ url ++ ". " ++ nl
  ++ "Generate a forensic report.".

Definition textPrompt (textContent : string) : string :=
  "Analyze this text content for plagiarism and piracy risks:" ++ nl ++ nl
  ++ textContent.

Definition binaryPrompt (mime : string) : string :=
  "Analyze this " ++ mime
  ++ " asset and generate a forensic piracy report based on simulated reverse search and metadata analysis.".

Definition metadataPrompt (f : Web.File) : string :=
  "Perform a simulated forensic analysis on this file." ++ nl ++ nl
  ++ "File Name: " ++ Web.name f ++ nl
  ++ "File Size: " ++ Str.ofN (Web.size f) ++ " bytes" ++ nl
  ++ "File Type: " ++ Web.type f ++ nl ++ nl
  ++ "Since direct content analysis is not available for this file type via the current interface, simulate findings based on the metadata and common piracy patterns associated with this file format.".

(** The input normalizer: the value of [parts] when the retry loop
    starts. *)
Definition buildParts (inp : input) : io (list part) :=
  match inp with
  | Url url => ioRet [TextPart (urlPrompt url)]
  | FileInput f =>
      if isTextLike f then
        textContent <~ fileToText f ;;
        ioRet [TextPart (textPrompt textContent)]
      else if isSupportedMimeType (Web.type f) then
        base64Data <~ fileToBase64 f ;;
        ioRet [InlineData (Web.type f) base64Data;
               TextPart (binaryPrompt (Web.type f))]
      else
        ioRet [TextPart (metadataPrompt f)]
  end.

(** [error.status || error.code || error?.error?.code || error?.error?.status] *)
Definition errorCode (error : jsval) : completion jsval :=
  status <- JS.get error "status" ;;
  if JS.truthy status then Return status else
  code <- JS.get error "code" ;;
  if JS.truthy code then Return code else
  Return (JS.or (JS.getOpt (JS.getOpt error "error") "code")
                (JS.getOpt (JS.getOpt error "error") "status")).

(** [error.message || error?.error?.message || JSON.stringify(error)] *)
Definition errorMessage (error : jsval) : completion jsval :=
  message <- JS.get error "message" ;;
  if JS.truthy message then Return message else
  Return (JS.or (JS.getOpt (JS.getOpt error "error") "message")
                (JSON.stringifyVal error)).

Definition messageMatches (errorMessage : jsval) : bool :=
  match errorMessage with
  | JStr m =>
      Str.includes m "429" || Str.includes m "quota"
      || Str.includes m "RESOURCE_EXHAUSTED"
  | _ => false
  end.

(** The value of [isRateLimit] in the [catch] block. *)
Definition isRateLimit (error : jsval) : completion bool :=
  code <- errorCode error ;;
  message <- errorMessage error ;;
  Return (JS.strictEqNum code 429
          || JS.strictEqStr code "RESOURCE_EXHAUSTED"
          || messageMatches message).

Definition maxAttempts : nat := 5.
Definition initialDelay : N := 4000.

Definition retryWarning (delay : N) (attempts : nat) : string :=
  "Gemini rate limit hit. Retrying in " ++ Str.ofN delay ++ "ms... (Attempt "
  ++ Str.ofN (N.of_nat attempts) ++ "/" ++ Str.ofN (N.of_nat maxAttempts) ++ ")".

Definition prepend {A} (tr : list effect) (m : io A) : io A :=
  ((tr ++ fst m)%list, snd m).

Section Requester.

(** [JSON.parse] of the host: the parsed value, or the SyntaxError it
    throws. *)
Variable JSON_parse : string -> completion jsval.

(** The remote model: what the [n]-th call of [generateContent] of this
    run, sent [parts], comes to. *)
Variable generateContent : nat -> list part -> response.

Variable parts : list part.

(** The body of the [try] block at the call number [calls]. *)
Definition tryBody (calls : nat) : completion jsval :=
  match generateContent calls parts with
  | Rejects e => Throw e
  | Responds textResponse =>
      match textResponse with
      | None | Some EmptyString => Throw (JS.Error "No response from AI")
      | Some t => JSON_parse t
      end
  end.

(** The [while (true)] loop, from the state [attempts], [delay]; [calls]
    counts the requests made so far. *)
Equations? requestLoop (attempts : nat) (delay : N) (calls : nat) : io jsval
  by wf (maxAttempts - attempts) lt :=
requestLoop attempts delay calls with tryBody calls := {
  | Return report := ([GenerateContent parts], Return report);
  | Throw error with isRateLimit error := {
    | Throw typeError := ([GenerateContent parts], Throw typeError);
    | Return rateLimited
        with inspect (rateLimited && Nat.ltb (S attempts) maxAttempts) := {
      | exist _ true retry :=
          prepend [GenerateContent parts;
                   ConsoleWarn (retryWarning delay (S attempts));
                   Sleep delay]
                  (requestLoop (S attempts) (delay * 2) (S calls));
      | exist _ false _ :=
          ([GenerateContent parts; ConsoleError error], Throw error) } } }.
Proof.
  apply andb_prop in retry. destruct retry as [_ retry].
  apply Nat.ltb_lt in retry. unfold maxAttempts in retry.
  change (5 - S attempts < 5 - attempts). lia.
Qed.

End Requester.

(** The report requester: the loop from [attempts = 0], [delay = 4000]. *)
Definition requester
    (JSON_parse : string -> completion jsval)
    (generateContent : nat -> list part -> response)
    (parts : list part) : io jsval :=
  requestLoop JSON_parse generateContent parts 0 initialDelay 0.

(** The trace of four retries: the request, the warning and the sleep of
    each, with the delays 4000, 8000, 16000 and 32000 ms. *)
Definition fourRetries (parts : list part) : list effect :=
  [GenerateContent parts; ConsoleWarn (retryWarning 4000 1); Sleep 4000;
   GenerateContent parts; ConsoleWarn (retryWarning 8000 2); Sleep 8000;
   GenerateContent parts; ConsoleWarn (retryWarning 16000 3); Sleep 16000;
   GenerateContent parts; ConsoleWarn (retryWarning 32000 4); Sleep 32000].

(** The attempt number [i] (from 0) fails with a rate-limited error. *)
Definition rateLimitedAt
    (JSON_parse : string -> completion jsval)
    (generateContent : nat -> list part -> response)
    (parts : list part) (i : nat) : Prop :=
  exists error,
    tryBody JSON_parse generateContent parts i = Throw error
    /\ isRateLimit error = Return true.

Definition API_KEY_missing : jsval :=
  JS.Error "API_KEY is missing from environment variables".

(** [analyzeAsset(input)], run with the environment variable [apiKey],
    the host's [JSON.parse] and the remote model. *)
Definition analyzeAsset
    (JSON_parse : string -> completion jsval)
    (generateContent : nat -> list part -> response)
    (apiKey : option string) (inp : input) : io jsval :=
  match apiKey with
  | None | Some EmptyString => ioThrow API_KEY_missing
  | Some _ =>
      parts <~ buildParts inp ;;
      requester JSON_parse generateContent parts
  end.

End GeminiService.

(** ** [App.tsx]: the application state controller *)

Module App.

Import GeminiService.

Inductive AppState : Type := IDLE | SCANNING | REPORT_READY | ERROR.

Inductive InputMode : Type := FileMode | UrlMode.

(** The state the component keeps with [useState]. [report] is [JNull]
    while it is [null]. *)
Record state : Type := mkState {
  appState : AppState;
  inputMode : InputMode;
  file : option Web.File;
  urlInput : string;
  report : jsval;
  error : option string
}.

Definition initial : state :=
  mkState IDLE FileMode None "" JNull None.

Definition setAppState (a : AppState) (st : state) : state :=
  mkState a (inputMode st) (file st) (urlInput st) (report st) (error st).
Definition setInputMode (m : InputMode) (st : state) : state :=
  mkState (appState st) m (file st) (urlInput st) (report st) (error st).
Definition setFile (f : option Web.File) (st : state) : state :=
  mkState (appState st) (inputMode st) f (urlInput st) (report st) (error st).
Definition setUrlInput (u : string) (st : state) : state :=
  mkState (appState st) (inputMode st) (file st) u (report st) (error st).
Definition setReport (r : jsval) (st : state) : state :=
  mkState (appState st) (inputMode st) (file st) (urlInput st) r (error st).
Definition setError (e : option string) (st : state) : state :=
  mkState (appState st) (inputMode st) (file st) (urlInput st) (report st) e.

(** What a handler does besides setting state. *)
Inductive action : Type :=
| Alert (msg : string)
| CallAnalyzeAsset (asset : input)
| LogError (err : jsval).

Definition maxFileSize : N := 50 * 1024 * 1024.

Definition fileTooLarge : string :=
  "File too large. Please upload a file smaller than 50MB.".

Definition scanFailed : string :=
  "Failed to generate report. Please try again.".

(** [handleFileChange], given [e.target.files]. *)
Definition handleFileChange (files : option (list Web.File)) (st : state)
  : state * list action :=
  match files with
  | Some (f :: _) =>
      if N.ltb maxFileSize (Web.size f) then (st, [Alert fileTooLarge])
      else (setFile (Some f) st, [])
  | Some [] | None => (st, [])
  end.

(** [inputMode === 'url' ? urlInput : file], [None] when it is falsy. *)
Definition currentAsset (st : state) : option input :=
  match inputMode st with
  | UrlMode =>
      if String.eqb (urlInput st) "" then None else Some (Url (urlInput st))
  | FileMode => option_map FileInput (file st)
  end.

(** [startScan] up to its [await]. *)
Definition startScan (st : state) : state * list action :=
  match currentAsset st with
  | None => (st, [])
  | Some asset =>
      (setError None (setAppState SCANNING st), [CallAnalyzeAsset asset])
  end.

(** [startScan] from its [await] on, when [analyzeAsset] has settled
    with [outcome]. *)
Definition startScanSettled (outcome : completion jsval) (st : state)
  : state * list action :=
  match outcome with
  | Return data => (setReport data st, [])
  | Throw err =>
      (setAppState ERROR (setError (Some scanFailed) st), [LogError err])
  end.

(** [onScanComplete].  The scan animation calls the closure of the render
    that set its timer; the page sets a timer on each render of the
    scanning screen and nothing but these timers changes the state once a
    report is held, so the closure that sees a report sees the current
    one, and an older closure sees none and does nothing. *)
Definition onScanComplete (st : state) : state :=
  if JS.truthy (report st) then setAppState REPORT_READY st else st.

(** [resetApp]; it also empties the file input element, which is no part
    of the state. *)
Definition resetApp (st : state) : state :=
  setError None
    (setReport JNull (setUrlInput "" (setFile None (setAppState IDLE st)))).

(** The [onClick] of a button of [renderNavButton]. *)
Definition navButton (mode : InputMode) (st : state) : state :=
  setUrlInput "" (setFile None (setInputMode mode st)).

(** *** The controller under the events the page can raise *)

Inductive event : Type :=
| FilesChosen (files : option (list Web.File))
| UrlTyped (url : string)
| NavClicked (mode : InputMode)
| ScanClicked
| AnimationDone
| ResetClicked
| AnalyzeSettled (outcome : completion jsval).

(** The controller with what it has set going: the number of calls of
    [analyzeAsset] that have not settled, and the actions so far, latest
    first. *)
Record config : Type := mkConfig {
  st : state;
  pending : nat;
  log : list action
}.

Definition start : config := mkConfig initial 0 [].

Definition isCall (a : action) : bool :=
  match a with CallAnalyzeAsset _ => true | _ => false end.

Definition handle (ev : event) (c : config) : config :=
  match ev with
  | FilesChosen files =>
      let r := handleFileChange files (st c) in
      mkConfig (fst r) (pending c) (rev (snd r) ++ log c)%list
  | UrlTyped url => mkConfig (setUrlInput url (st c)) (pending c) (log c)
  | NavClicked mode => mkConfig (navButton mode (st c)) (pending c) (log c)
  | ScanClicked =>
      let r := startScan (st c) in
      mkConfig (fst r)
        (List.length (filter isCall (snd r)) + pending c)
        (rev (snd r) ++ log c)%list
  | AnimationDone => mkConfig (onScanComplete (st c)) (pending c) (log c)
  | ResetClicked => mkConfig (resetApp (st c)) (pending c) (log c)
  | AnalyzeSettled outcome =>
      let r := startScanSettled outcome (st c) in
      mkConfig (fst r) (Nat.pred (pending c)) (rev (snd r) ++ log c)%list
  end.

(** What the page of [src/App.tsx] lets happen, at most: the inputs and
    the scan button are rendered in [IDLE] only, the reset button with the
    report view ([REPORT_READY] with a report) and on the error screen
    (shown in [ERROR] while no message is set); a call in flight may settle
    and a timer of the scan animation may fire at any time.  This is an
    upper bound of what the page offers: it does not ask that the input of
    an event is the one of the current mode, nor that [ReportView] has
    rendered the report without throwing, which unmounts the page.  What
    holds of every state reached under it holds of every state the page
    reaches.  (The older copy of the page, [src/unnamed/part_000], offers
    the reset in every state: see [Part000].) *)
Definition enabled (ev : event) (c : config) : bool :=
  match ev with
  | FilesChosen _ | UrlTyped _ | NavClicked _ | ScanClicked =>
      match appState (st c) with IDLE => true | _ => false end
  | AnimationDone => true
  | ResetClicked =>
      match appState (st c) with
      | REPORT_READY => JS.truthy (report (st c))
      | ERROR =>
          match error (st c) with None => true | Some msg => String.eqb msg "" end
      | _ => false
      end
  | AnalyzeSettled _ => Nat.ltb 0 (pending c)
  end.

Definition run (evs : list event) (c : config) : config :=
  fold_left (fun c ev => handle ev c) evs c.

(** Each event of [evs] is enabled when its turn comes. *)
Fixpoint allowed (evs : list event) (c : config) : bool :=
  match evs with
  | [] => true
  | ev :: rest => enabled ev c && allowed rest (handle ev c)
  end.

Inductive reachable : config -> Prop :=
| reachable_start : reachable start
| reachable_step c ev :
    reachable c -> enabled ev c = true -> reachable (handle ev c).

End App.

(** ** The invariant of the controller *)

Module Inv.

Import App.

(** At most one call of [analyzeAsset] is in flight, and then the page is
    scanning and holds no report; a report is held in [REPORT_READY], and
    none in [IDLE] and [ERROR]. *)
Definition holds (c : config) : Prop :=
  pending c <= 1
  /\ (pending c = 1 ->
      appState (st c) = SCANNING /\ JS.truthy (report (st c)) = false)
  /\ (appState (st c) = REPORT_READY -> JS.truthy (report (st c)) = true)
  /\ (appState (st c) = IDLE -> JS.truthy (report (st c)) = false)
  /\ (appState (st c) = ERROR -> JS.truthy (report (st c)) = false).

(** No file above the limit is held or was handed to [analyzeAsset]. *)
Definition sizeChecked (c : config) : Prop :=
  (forall f, file (st c) = Some f -> (Web.size f <= maxFileSize)%N)
  /\ (forall f, In (CallAnalyzeAsset (GeminiService.FileInput f)) (log c) ->
                (Web.size f <= maxFileSize)%N).

End Inv.

(** ** The specification's wording, for comparison *)

Module Stated.

(** The rate-limit test in the specification's words: the error's status
    or code equals 429 or RESOURCE_EXHAUSTED, or the error's message
    contains one of the three markers. *)
Definition rateLimited (error : jsval) : bool :=
  let status := JS.getOpt error "status" in
  let code := JS.getOpt error "code" in
  JS.strictEqNum status 429 || JS.strictEqStr status "RESOURCE_EXHAUSTED"
  || JS.strictEqNum code 429 || JS.strictEqStr code "RESOURCE_EXHAUSTED"
  || GeminiService.messageMatches (JS.getOpt error "message").

(** The fields of [reportSchema]: those it lists as required, and the
    others. *)
Definition requiredFields : list string :=
  ["case_id"; "verdict"; "confidence_score"; "summary"; "risk_level"].

Definition otherFields : list string :=
  ["key_evidence"; "suspicious_urls"; "probable_original_sources";
   "data_gaps"; "recommended_actions"; "engine_scores"].

Definition present (v : jsval) (k : string) : bool :=
  match JS.getOpt v k with JUndefined => false | _ => true end.

Definition emptyCollection (v : jsval) : bool :=
  match v with JArr [] => true | _ => false end.

(** The report invariant in the specification's words, for a report made
    from the parsed [response]: the required fields are present, and a
    field absent from the response is an empty collection. *)
Definition reportInvariant (response report : jsval) : bool :=
  forallb (present report) requiredFields
  && forallb (fun k => present response k
                       || emptyCollection (JS.getOpt report k)) otherFields.

End Stated.

(** ** Sample inputs *)

Module Sample.

Import GeminiService.

(** [s] with each apostrophe turned into a double quote, to write JSON
    texts. *)
Fixpoint dq (s : string) : string :=
  match s with
  | EmptyString => EmptyString
  | String c s' => String (if Ascii.eqb c "'" then "034"%char else c) (dq s')
  end.

(** The error the SDK throws on HTTP 429. *)
Definition apiError429 : jsval :=
  JError "ApiError" "got status: 429 Too Many Requests"
    [("name", JStr "ApiError"); ("status", JNum 429)].

Definition apiError400 : jsval :=
  JError "ApiError" "got status: 400 Bad Request. API key not valid"
    [("name", JStr "ApiError"); ("status", JNum 400)].

(** A thrown plain object with no status, code or message. *)
Definition quotaObject : jsval := JObj [("reason", JStr "quota exceeded")].

(** A response with the five required fields and nothing else. *)
Definition minimalText : string :=
  dq "{'case_id':'DX-2025-0001','verdict':'LIKELY ORIGINAL / AUTHENTIC','confidence_score':91,'summary':'No matches found.','risk_level':'LOW'}".

Definition minimalReport : jsval :=
  JObj [("case_id", JStr "DX-2025-0001");
        ("verdict", JStr "LIKELY ORIGINAL / AUTHENTIC");
        ("confidence_score", JNum 91);
        ("summary", JStr "No matches found.");
        ("risk_level", JStr "LOW")].

(** A remote model that answers [minimalText] after [n] rate-limited
    failures. *)
Definition failing (n : nat) (i : nat) (_ : list part) : response :=
  if Nat.ltb i n then Rejects apiError429 else Responds (Some minimalText).

Definition png : Web.File :=
  Web.mkFile "cover.png" "image/png" 3 (Some [Byte.x89; Byte.x50; Byte.x4e]).

(** A file with an image type and a text extension. *)
Definition pngNamedTxt : Web.File :=
  Web.mkFile "cover.txt" "image/png" 3 (Some [Byte.x89; Byte.x50; Byte.x4e]).

Definition docx : Web.File :=
  Web.mkFile "thesis.docx"
    "application/vnd.openxmlformats-officedocument.wordprocessingml.document"
    18432 None.

(** A text file whose read fails. *)
Definition unreadableText : Web.File :=
  Web.mkFile "notes.txt" "text/plain" 120 None.

(** A file of 50 MiB and one byte. *)
Definition oversized : Web.File :=
  Web.mkFile "film.mp4" "video/mp4" 52428801 None.

Definition urlParts : list part := [TextPart (urlPrompt "https://example.org/a")].

(** A scan of [png] is started and the page is reset before the call
    settles. *)
Definition resetWhileScanning : App.config :=
  App.run [App.FilesChosen (Some [png]); App.ScanClicked; App.ResetClicked]
    App.start.

(** A scan of [png] goes through while the animation has run out twice. *)
Definition fullScan : list App.event :=
  [App.FilesChosen (Some [png]); App.ScanClicked; App.AnimationDone;
   App.AnalyzeSettled (Return minimalReport); App.AnimationDone;
   App.AnimationDone].

(** The state in which the scan of [png] has just started. *)
Definition scanning : App.state :=
  App.st (App.run [App.FilesChosen (Some [png]); App.ScanClicked] App.start).

(** A remote model that always answers [text]. *)
Definition answering (text : string) (_ : nat) (_ : list part) : response :=
  Responds (Some text).

End Sample.

(** ** The backoff schedule and the reads of a run *)

Module Backoff.

(** The first [k] delays of a backoff that starts at [delay] and doubles:
    [delay * 2^i] for [i < k]. *)
Definition schedule (delay : N) (k : nat) : list N :=
  map (fun i => (delay * 2 ^ N.of_nat i)%N) (seq 0 k).

Definition total (delays : list N) : N := fold_right N.add 0%N delays.

End Backoff.

Definition isRead (e : effect) : bool :=
  match e with
  | ReadAsText _ | ReadAsDataURL _ => true
  | _ => false
  end.

(** ** More sample inputs *)

Module Sample2.

Import GeminiService.

(** A remote model whose calls all reject with [null]. *)
Definition rejectingNull (_ : nat) (_ : list part) : response := Rejects JNull.

(** A file whose declared type holds a comma. *)
Definition commaType : Web.File :=
  Web.mkFile "cover.bin" "image/a,b" 3 (Some [Byte.x89; Byte.x50; Byte.x4e]).

(** A text file that starts with the UTF-8 byte order mark and ends with a
    byte that no UTF-8 sequence holds: EF BB BF, [hi], FF. *)
Definition markedText : Web.File :=
  Web.mkFile "notes.md" "" 6
    (Some [Byte.xef; Byte.xbb; Byte.xbf; Byte.x68; Byte.x69; Byte.xff]).

(** A report with every field of [ForensicReport]. *)
Definition fullReport : jsval :=
  JObj [("case_id", JStr "DX-2025-0002");
        ("verdict", JStr "LIKELY PIRATED / UNAUTHORIZED COPY");
        ("confidence_score", JNum 87);
        ("summary", JStr "Copies found on two hosts.");
        ("key_evidence", JArr [JStr "Identical frames on host A"]);
        ("risk_level", JStr "HIGH");
        ("suspicious_urls", JArr [JStr "https://example.org/copy"]);
        ("probable_original_sources", JArr []);
        ("data_gaps", JArr []);
        ("recommended_actions", JArr [JStr "Send a takedown notice"]);
        ("engine_scores",
         JArr [JObj [("name", JStr "TinEye"); ("score", JNum 90)]])].

End Sample2.

(** ** The types of [src/types.ts] *)

Module Types.

Definition isString (v : jsval) : bool :=
  match v with JStr _ => true | _ => false end.

Definition isNumber (v : jsval) : bool :=
  match v with JNum _ => true | _ => false end.

(** [string[]] *)
Definition isStringArray (v : jsval) : bool :=
  match v with JArr items => forallb isString items | _ => false end.

Definition oneOf (values : list string) (v : jsval) : bool :=
  match v with
  | JStr s => existsb (String.eqb s) values
  | _ => false
  end.

(** The values of the enum [Verdict]. *)
Definition Verdict : list string :=
  ["LIKELY ORIGINAL / AUTHENTIC";
   "LIKELY PIRATED / UNAUTHORIZED COPY";
   "INCONCLUSIVE – MORE DATA NEEDED"].

(** [EngineScore] *)
Definition isEngineScore (v : jsval) : bool :=
  match v with
  | JObj _ => isString (JS.getOpt v "name") && isNumber (JS.getOpt v "score")
  | _ => false
  end.

(** A value that has the fields of the interface [ForensicReport], each
    of its declared type; [engine_scores] may be absent. *)
Definition isForensicReport (v : jsval) : bool :=
  match v with
  | JObj _ =>
      isString (JS.getOpt v "case_id")
      && oneOf Verdict (JS.getOpt v "verdict")
      && isNumber (JS.getOpt v "confidence_score")
      && isString (JS.getOpt v "summary")
      && isStringArray (JS.getOpt v "key_evidence")
      && oneOf ["LOW"; "MEDIUM"; "HIGH"] (JS.getOpt v "risk_level")
      && isStringArray (JS.getOpt v "suspicious_urls")
      && isStringArray (JS.getOpt v "probable_original_sources")
      && isStringArray (JS.getOpt v "data_gaps")
      && isStringArray (JS.getOpt v "recommended_actions")
      && match JS.getOpt v "engine_scores" with
         | JUndefined => true
         | JArr items => forallb isEngineScore items
         | _ => false
         end
  | _ => false
  end.

End Types.

(** ** What the page of [src/App.tsx] shows *)

Module Page.

Import App.

(** The content of [<main>]: the four blocks of the JSX, each under its
    condition.  The idle screen carries whether the scan button is
    disabled and the error banner when there is one; the report screen
    carries the report handed to [ReportView]; the error screen is the one
    with the reset button; [Blank] is no block at all. *)
Inductive screen : Type :=
| IdleScreen (scanDisabled : bool) (banner : option string)
| ScanScreen
| ReportScreen (report : jsval)
| ErrorScreen
| Blank.

(** [!error] and [error && ...] for [error : string | null]. *)
Definition errorSet (e : option string) : bool :=
  match e with
  | None => false
  | Some msg => negb (String.eqb msg "")
  end.

Definition view (s : state) : screen :=
  match appState s with
  | IDLE =>
      IdleScreen
        (match currentAsset s with None => true | Some _ => false end)
        (if errorSet (error s) then error s else None)
  | SCANNING => ScanScreen
  | REPORT_READY =>
      if JS.truthy (report s) then ReportScreen (report s) else Blank
  | ERROR => if errorSet (error s) then Blank else ErrorScreen
  end.

(** What the page of [src/App.tsx] offers for sure, a lower bound of its
    events for the statements that a run is possible: the input of the
    current mode and the mode buttons in [IDLE]; the scan button when it
    is not disabled; the timer of the scan animation while the animation
    is mounted; the reset of the report view when the report has the
    fields of [ForensicReport], each of its declared type, which the view
    renders, and the reset of the error block; the settling of a call in
    flight. *)
Definition offered (ev : event) (c : config) : bool :=
  let s := st c in
  let idle := match appState s with IDLE => true | _ => false end in
  let urlMode := match inputMode s with UrlMode => true | FileMode => false end in
  match ev with
  | FilesChosen _ => idle && negb urlMode
  | UrlTyped _ => idle && urlMode
  | NavClicked _ => idle
  | ScanClicked =>
      idle && match currentAsset s with Some _ => true | None => false end
  | AnimationDone => match appState s with SCANNING => true | _ => false end
  | ResetClicked =>
      match appState s with
      | REPORT_READY => Types.isForensicReport (report s)
      | ERROR => negb (errorSet (error s))
      | _ => false
      end
  | AnalyzeSettled _ => Nat.ltb 0 (pending c)
  end.

(** Each event of [evs] is offered when its turn comes. *)
Fixpoint possible (evs : list event) (c : config) : bool :=
  match evs with
  | [] => true
  | ev :: rest => offered ev c && possible rest (handle ev c)
  end.

(** The events of one scan of [f] that goes well, from the choice of the
    file to the reset. *)
Definition cycle (f : Web.File) (data : jsval) : list event :=
  [FilesChosen (Some [f]); ScanClicked; AnalyzeSettled (Return data);
   AnimationDone; ResetClicked].

(** The URLs handed to [analyzeAsset] so far. *)
Definition urlsSubmitted (c : config) : list string :=
  flat_map (fun a => match a with
                     | CallAnalyzeAsset (GeminiService.Url u) => [u]
                     | _ => []
                     end) (log c).

(** A scan of the sample image is started, and fails. *)
Definition startedScan : list event :=
  [FilesChosen (Some [Sample.png]); ScanClicked].

Definition failedScan : list event :=
  [FilesChosen (Some [Sample.png]); ScanClicked;
   AnalyzeSettled (Throw Sample.apiError400)].

End Page.

(** ** [components/ScanVisualization.tsx] *)

Module ScanVisualization.

Inductive Status : Type := Pending | Active | Complete.

Record ScanStep : Type := mkStep {
  id : string;
  label : string;
  status : Status
}.

Definition STEPS : list ScanStep :=
  [mkStep "upload" "Initializing Secure Analysis Environment" Pending;
   mkStep "hash" "Generating Content Fingerprints / Embeddings" Pending;
   mkStep "tineye" "Querying Global Index & Reverse Search" Pending;
   mkStep "yandex" "Cross-referencing Visual/Text Databases" Pending;
   mkStep "meta" "Analyzing Pattern & Metadata Anomalies" Pending;
   mkStep "gemini" "Synthesizing Forensic Report (Gemini AI)" Pending].

(** The state of the component. *)
Record state : Type := mkState {
  steps : list ScanStep;
  currentStepIndex : nat
}.

(** [xs.map((x, i) => f(x, i))] *)
Fixpoint mapiFrom {A B} (f : A -> nat -> B) (i : nat) (xs : list A) : list B :=
  match xs with
  | [] => []
  | x :: rest => f x i :: mapiFrom f (S i) rest
  end.

Definition mapi {A B} (f : A -> nat -> B) (xs : list A) : list B :=
  mapiFrom f 0 xs.

(** [{ ...s, status }] *)
Definition withStatus (st : Status) (s : ScanStep) : ScanStep :=
  mkStep (id s) (label s) st.

(** [prev.map((s, i) => i === index ? { ...s, status } : s)] *)
Definition setStatusAt (index : nat) (st : Status) (prev : list ScanStep)
  : list ScanStep :=
  mapi (fun s i => if Nat.eqb i index then withStatus st s else s) prev.

(** The timer an effect sets: the one that calls [onComplete] after [ms]
    milliseconds, or the timer of the current step, of a random
    duration. *)
Inductive timer : Type :=
| OnComplete (ms : N)
| StepTimer.

(** The effect, run after a render in state [s]. *)
Definition effect (s : state) : state * timer :=
  if Nat.leb (List.length (steps s)) (currentStepIndex s)
  then (s, OnComplete 800)
  else (mkState (setStatusAt (currentStepIndex s) Active (steps s))
                (currentStepIndex s),
        StepTimer).

(** The callback of the step timer.  The effect is run again, and the
    timer cleared, whenever [currentStepIndex] changes, so the index the
    callback has captured is the current one. *)
Definition stepTimerFired (s : state) : state :=
  mkState (setStatusAt (currentStepIndex s) Complete (steps s))
          (S (currentStepIndex s)).

(** The step timer fires and the effect runs for the new index. *)
Definition tick (s : state) : state * timer := effect (stepTimerFired s).

(** The component mounted with the steps [steps0], after [k] step timers
    have fired. *)
Definition after (k : nat) (steps0 : list ScanStep) : state * timer :=
  Nat.iter k (fun r => tick (fst r)) (effect (mkState steps0 0)).

(** The first step of [rest] set active. *)
Definition activate (rest : list ScanStep) : list ScanStep :=
  match rest with
  | [] => []
  | s :: rest' => withStatus Active s :: rest'
  end.

End ScanVisualization.

(** ** [components/ReportView.tsx]: the first list of the view *)

Module ReportView.

(** [xs.map(callback)] for a callback that does not throw: the items the
    callback is called on.  A value that is no array has no callable
    [map]. *)
Definition mapItems (xs : jsval) (expr : string) : completion (list jsval) :=
  match xs with
  | JArr items => Return items
  | JUndefined | JNull => Throw (JS.TypeError_read xs "map")
  | _ => Throw (JError "TypeError" (expr ++ ".map is not a function") [])
  end.

(** [report.key_evidence.map(...)], the first expression of the component
    that can throw: what comes before it reads fields of the report and
    builds elements. *)
Definition keyEvidence (report : jsval) : completion (list jsval) :=
  xs <- JS.get report "key_evidence" ;;
  mapItems xs "report.key_evidence".

(** The events that bring the page to the report view. *)
Definition scanOf (f : Web.File) (report : jsval) : list App.event :=
  [App.FilesChosen (Some [f]); App.ScanClicked;
   App.AnalyzeSettled (Return report); App.AnimationDone].

End ReportView.

(** ** Base64 decoding (RFC 4648), to read back what is sent *)

Module Base64.

Fixpoint indexIn (c : ascii) (s : string) : option N :=
  match s with
  | EmptyString => None
  | String x s' =>
      if Ascii.eqb x c then Some 0%N else option_map N.succ (indexIn c s')
  end.

Definition index (c : ascii) : option N := indexIn c Web.base64Alphabet.

Definition byteOf (n : N) : Byte.byte :=
  match Byte.of_N n with
  | Some b => b
  | None => Byte.x00
  end.

Definition isPad (c : ascii) : bool := Ascii.eqb c "=".

Fixpoint decode (s : string) : option (list Byte.byte) :=
  match s with
  | EmptyString => Some []
  | String c1 (String c2 (String c3 (String c4 rest))) =>
      match index c1, index c2 with
      | Some i1, Some i2 =>
          match index c3, index c4 with
          | Some i3, Some i4 =>
              let n := (i1 * 262144 + i2 * 4096 + i3 * 64 + i4)%N in
              option_map
                (fun bs => byteOf (n / 65536) :: byteOf ((n / 256) mod 256)
                           :: byteOf (n mod 256) :: bs)
                (decode rest)
          | Some i3, None =>
              let n := (i1 * 262144 + i2 * 4096 + i3 * 64)%N in
              if isPad c4 && String.eqb rest ""
              then Some [byteOf (n / 65536); byteOf ((n / 256) mod 256)]
              else None
          | None, None =>
              let n := (i1 * 262144 + i2 * 4096)%N in
              if isPad c3 && isPad c4 && String.eqb rest ""
              then Some [byteOf (n / 65536)]
              else None
          | None, Some _ => None
          end
      | _, _ => None
      end
  | _ => None
  end.

End Base64.

(** ** The preview of the chosen file (src/App.tsx, idle block) *)

Module FilePreview.

(** The icons of the preview; [FileIcon] is the generic [File] icon. *)
Inductive icon : Type := ImageIcon | PlayCircle | FileText | FileIcon.

(** The icon shown for a chosen file of MIME type [type]. *)
Definition iconOf (type : string) : icon :=
  if Str.startsWith type "image" then ImageIcon
  else if Str.startsWith type "video" then PlayCircle
  else if Str.includes type "pdf" then FileText
  else FileIcon.

End FilePreview.

(** ** The page of [src/unnamed/part_000] *)

Module Part000.

Import App.

(** The component of [src/unnamed/part_000] has the state and the handlers
    of [src/App.tsx], and another JSX.  Its header, outside the blocks of
    the four states, calls [resetApp] on a click, whatever the state.  In
    [IDLE] the mode buttons are there, the file input in file mode and the
    URL input in URL mode, and the scan button when a file is held, or a
    URL in URL mode.  The scan animation is mounted in [SCANNING]; the
    callback of its timer is the [onScanComplete] of the render that set
    it, taken here in the current state.  A call in flight may settle at
    any time. *)
Definition enabled (ev : event) (c : config) : bool :=
  let s := st c in
  let idle := match appState s with IDLE => true | _ => false end in
  let urlMode := match inputMode s with UrlMode => true | FileMode => false end in
  match ev with
  | FilesChosen _ => idle && negb urlMode
  | UrlTyped _ => idle && urlMode
  | NavClicked _ => idle
  | ScanClicked =>
      idle
      && (match file s with Some _ => true | None => false end
          || (urlMode && negb (String.eqb (urlInput s) "")))
  | AnimationDone => match appState s with SCANNING => true | _ => false end
  | ResetClicked => true
  | AnalyzeSettled _ => Nat.ltb 0 (pending c)
  end.

(** Each event of [evs] is enabled when its turn comes. *)
Fixpoint allowed (evs : list event) (c : config) : bool :=
  match evs with
  | [] => true
  | ev :: rest => enabled ev c && allowed rest (handle ev c)
  end.


End Part000.

(** * Properties *)

(** ** Strings *)

Lemma prefix_app (p s : string) : String.prefix p (p ++ s) = true.
Proof.
  induction p as [|c p IH]; simpl.
  - now destruct s.
  - destruct (ascii_dec c c); [exact IH | congruence].
Qed.

Lemma includes_prefix (s p : string) :
  String.prefix p s = true -> Str.includes s p = true.
Proof. intros H. destruct s; simpl in *; rewrite H; reflexivity. Qed.

Lemma includes_app_l (a s p : string) :
  Str.includes s p = true -> Str.includes (a ++ s) p = true.
Proof.
  intros H. induction a as [|c a IH]; simpl; [exact H|].
  rewrite IH. apply orb_true_r.
Qed.

(** ** The requester *)

Section RequesterFacts.

Variable JSON_parse : string -> completion jsval.
Variable generateContent : nat -> list part -> GeminiService.response.
Variable parts : list part.

Import GeminiService.

Local Abbreviation tryBody := (tryBody JSON_parse generateContent parts).
Local Abbreviation requestLoop := (requestLoop JSON_parse generateContent parts).
Local Abbreviation requester := (requester JSON_parse generateContent parts).
Local Abbreviation rateLimitedAt := (rateLimitedAt JSON_parse generateContent parts).
Local Abbreviation fourRetries := (fourRetries parts).

Lemma loop_return attempts delay calls report :
  tryBody calls = Return report ->
  requestLoop attempts delay calls = ([GenerateContent parts], Return report).
Proof.
  intros H. simp requestLoop. rewrite H.
  reflexivity.
Qed.

Lemma loop_crash attempts delay calls error typeError :
  tryBody calls = Throw error ->
  isRateLimit error = Throw typeError ->
  requestLoop attempts delay calls = ([GenerateContent parts], Throw typeError).
Proof.
  intros H E. simp requestLoop. rewrite H.
  simpl. rewrite E. reflexivity.
Qed.

Lemma loop_retry attempts delay calls error :
  tryBody calls = Throw error ->
  isRateLimit error = Return true ->
  S attempts < maxAttempts ->
  requestLoop attempts delay calls =
    prepend [GenerateContent parts;
             ConsoleWarn (retryWarning delay (S attempts));
             Sleep delay]
            (requestLoop (S attempts) (delay * 2) (S calls)).
Proof.
  intros H E L.
  remember (GeminiService.requestLoop _ _ _ (S attempts) _ _) as rest.
  simp requestLoop. rewrite H. simpl. rewrite E. simpl.
  apply Nat.ltb_lt in L. subst rest.
  set (c := Nat.ltb (S attempts) maxAttempts) in *. clearbody c.
  destruct c; [reflexivity | discriminate].
Qed.

Lemma loop_exhausted attempts delay calls error :
  tryBody calls = Throw error ->
  isRateLimit error = Return true ->
  maxAttempts <= S attempts ->
  requestLoop attempts delay calls =
    ([GenerateContent parts; ConsoleError error], Throw error).
Proof.
  intros H E L.
  simp requestLoop. rewrite H. simpl. rewrite E. simpl.
  apply Nat.ltb_ge in L.
  set (c := Nat.ltb (S attempts) maxAttempts) in *. clearbody c.
  destruct c; [discriminate | reflexivity].
Qed.

Lemma loop_fatal attempts delay calls error :
  tryBody calls = Throw error ->
  isRateLimit error = Return false ->
  requestLoop attempts delay calls =
    ([GenerateContent parts; ConsoleError error], Throw error).
Proof.
  intros H E.
  simp requestLoop. rewrite H. simpl. rewrite E. reflexivity.
Qed.

Lemma tryBody_parsed calls t :
  generateContent calls parts = Responds (Some t) ->
  t <> "" ->
  tryBody calls = JSON_parse t.
Proof.
  unfold GeminiService.tryBody. intros -> Ht.
  destruct t; [congruence | reflexivity].
Qed.

Lemma four_retries :
  (forall i, i < 4 -> rateLimitedAt i) ->
  requester = prepend fourRetries (requestLoop 4 64000 4).
Proof.
  intros H. unfold GeminiService.requester, initialDelay.
  destruct (H 0) as (e0 & T0 & R0); [lia|].
  destruct (H 1) as (e1 & T1 & R1); [lia|].
  destruct (H 2) as (e2 & T2 & R2); [lia|].
  destruct (H 3) as (e3 & T3 & R3); [lia|].
  rewrite (loop_retry 0 4000 0 e0 T0 R0) by (unfold maxAttempts; lia).
  rewrite (loop_retry 1 _ 1 e1 T1 R1) by (unfold maxAttempts; lia).
  rewrite (loop_retry 2 _ 2 e2 T2 R2) by (unfold maxAttempts; lia).
  rewrite (loop_retry 3 _ 3 e3 T3 R3) by (unfold maxAttempts; lia).
  reflexivity.
Qed.

(** C1. For every payload, when the first four attempts fail with an error
    classified as rate-limited and the fifth response parses, the
    requester makes exactly five requests, sleeps 4000, 8000, 16000 and
    32000 ms between them, and returns the value parsed from the fifth
    response. *)
Theorem C1_four_rate_limits_then_success (t : string) (report : jsval) :
  (forall i, i < 4 -> rateLimitedAt i) ->
  generateContent 4 parts = Responds (Some t) ->
  t <> "" ->
  JSON_parse t = Return report ->
  requester = ((fourRetries ++ [GenerateContent parts])%list, Return report)
  /\ requests (fst requester) = [parts; parts; parts; parts; parts]
  /\ sleeps (fst requester) = [4000; 8000; 16000; 32000]%N.
Proof.
  intros H G Ht P.
  assert (E : requester
              = ((fourRetries ++ [GenerateContent parts])%list, Return report)).
  { rewrite (four_retries H).
    rewrite (loop_return 4 _ 4 report); [reflexivity|].
    rewrite (tryBody_parsed 4 t G Ht). exact P. }
  rewrite E. repeat split.
Qed.

Lemma loop_requests_bound n :
  forall attempts delay calls,
    maxAttempts - attempts = n ->
    List.length (requests (fst (requestLoop attempts delay calls)))
    <= Nat.max 1 n.
Proof.
  induction n as [|n IH]; intros attempts delay calls Hn;
    destruct (tryBody calls) as [a|e] eqn:T.
  1, 3: rewrite (loop_return _ _ _ a T); cbn; lia.
  all: destruct (isRateLimit e) as [[|]|te] eqn:R.
  all: try (rewrite (loop_fatal _ _ _ e T R); cbn; lia).
  all: try (rewrite (loop_crash _ _ _ e te T R); cbn; lia).
  - rewrite (loop_exhausted _ _ _ e T R) by lia. cbn. lia.
  - destruct (le_lt_dec maxAttempts (S attempts)) as [L|L].
    + rewrite (loop_exhausted _ _ _ e T R L). cbn. lia.
    + rewrite (loop_retry _ _ _ e T R L).
      cbn [fst prepend app requests flat_map List.length].
      specialize (IH (S attempts) (delay * 2)%N (S calls)).
      unfold requests in IH. unfold maxAttempts in *. lia.
Qed.

(** C2. An attempt that fails with an error classified as not
    rate-limited ends the run at once: the error is thrown after that one
    request, with no sleep.  Five rate-limited failures in a row end the
    run with the fifth error after five requests and the four sleeps.
    Either way the outcome is a thrown error, never a report; and no run
    whatever makes more than five requests. *)
Theorem C2_fatal_and_exhausted_failures_propagate :
  (forall attempts delay calls error,
      tryBody calls = Throw error ->
      isRateLimit error = Return false ->
      requestLoop attempts delay calls
      = ([GenerateContent parts; ConsoleError error], Throw error))
  /\ ((forall i, i < 5 -> rateLimitedAt i) ->
      exists error,
        tryBody 4 = Throw error
        /\ requester
           = ((fourRetries ++ [GenerateContent parts; ConsoleError error])%list,
              Throw error)
        /\ requests (fst requester) = [parts; parts; parts; parts; parts]
        /\ sleeps (fst requester) = [4000; 8000; 16000; 32000]%N)
  /\ List.length (requests (fst requester)) <= 5.
Proof.
  split; [exact loop_fatal|]. split; [|exact (loop_requests_bound 5 0 _ 0 eq_refl)].
  intros H. destruct (H 4) as (e & T & R); [lia|].
  exists e. split; [exact T|].
  assert (E : requester
              = ((fourRetries ++ [GenerateContent parts; ConsoleError e])%list,
                 Throw e)).
  { rewrite four_retries by (intros i Hi; apply H; lia).
    rewrite (loop_exhausted 4 _ 4 e T R) by (unfold maxAttempts; lia).
    reflexivity. }
  rewrite E. repeat split.
Qed.

Lemma tryBody_return_inv calls report :
  tryBody calls = Return report ->
  exists t,
    generateContent calls parts = Responds (Some t)
    /\ t <> "" /\ JSON_parse t = Return report.
Proof.
  unfold GeminiService.tryBody.
  destruct (generateContent calls parts) as [e|[[|c t]|]]; try discriminate.
  intros H. exists (String c t). repeat split; [discriminate | exact H].
Qed.

Lemma loop_returns_parsed n :
  forall attempts delay calls report,
    maxAttempts - attempts = n ->
    snd (requestLoop attempts delay calls) = Return report ->
    exists i t,
      calls <= i < calls + Nat.max 1 n
      /\ generateContent i parts = Responds (Some t)
      /\ t <> "" /\ JSON_parse t = Return report.
Proof.
  induction n as [|n IH]; intros attempts delay calls report Hn;
    destruct (tryBody calls) as [a|e] eqn:T.
  1, 3: rewrite (loop_return _ _ _ a T); cbn [snd]; intros [= <-];
    destruct (tryBody_return_inv _ _ T) as (t & G & Ht & P);
    exists calls, t; repeat split; try assumption; lia.
  all: destruct (isRateLimit e) as [[|]|te] eqn:R.
  all: try (rewrite (loop_fatal _ _ _ e T R); discriminate).
  all: try (rewrite (loop_crash _ _ _ e te T R); discriminate).
  - rewrite (loop_exhausted _ _ _ e T R) by lia. discriminate.
  - destruct (le_lt_dec maxAttempts (S attempts)) as [L|L].
    + rewrite (loop_exhausted _ _ _ e T R L). discriminate.
    + rewrite (loop_retry _ _ _ e T R L). cbn [snd prepend]. intros H.
      apply IH in H; [|lia].
      destruct H as (i & t & Hi & G & Ht & P).
      exists i, t. repeat split; try assumption; lia.
Qed.

Lemma requester_returns_parsed (report : jsval) :
  snd requester = Return report ->
  exists i t,
    i < 5
    /\ generateContent i parts = Responds (Some t)
    /\ t <> ""
    /\ JSON_parse t = Return report.
Proof.
  intros H. apply (loop_returns_parsed 5) in H; [|reflexivity].
  destruct H as (i & t & Hi & G & Ht & P).
  exists i, t. repeat split; try assumption. simpl in Hi. lia.
Qed.

End RequesterFacts.

Lemma failing_rateLimitedAt (n i : nat) (parts : list part) :
  i < n ->
  GeminiService.rateLimitedAt JSON.parse (Sample.failing n) parts i.
Proof.
  intros H. exists Sample.apiError429.
  unfold GeminiService.tryBody, Sample.failing.
  apply Nat.ltb_lt in H. rewrite H. split; reflexivity.
Qed.

Lemma C1_witness :
  GeminiService.requester JSON.parse (Sample.failing 4) Sample.urlParts
  = ((GeminiService.fourRetries Sample.urlParts
        ++ [GenerateContent Sample.urlParts])%list,
     Return Sample.minimalReport).
Proof.
  refine (proj1 (C1_four_rate_limits_then_success JSON.parse
                   (Sample.failing 4) Sample.urlParts Sample.minimalText
                   Sample.minimalReport
                   (fun i Hi => failing_rateLimitedAt 4 i _ Hi)
                   eq_refl _ eq_refl)).
  discriminate.
Defined.

Lemma C2_witness :
  exists error,
    GeminiService.tryBody JSON.parse (Sample.failing 5) Sample.urlParts 4
    = Throw error
    /\ GeminiService.requester JSON.parse (Sample.failing 5) Sample.urlParts
       = ((GeminiService.fourRetries Sample.urlParts
             ++ [GenerateContent Sample.urlParts; ConsoleError error])%list,
          Throw error)
    /\ requests
         (fst (GeminiService.requester JSON.parse (Sample.failing 5)
                 Sample.urlParts))
       = [Sample.urlParts; Sample.urlParts; Sample.urlParts; Sample.urlParts;
          Sample.urlParts]
    /\ sleeps
         (fst (GeminiService.requester JSON.parse (Sample.failing 5)
                 Sample.urlParts))
       = [4000; 8000; 16000; 32000]%N.
Proof.
  exact (proj1 (proj2 (C2_fatal_and_exhausted_failures_propagate JSON.parse
                         (Sample.failing 5) Sample.urlParts))
               (fun i Hi => failing_rateLimitedAt 5 i _ Hi)).
Defined.

(** ** The input normalizer *)

Lemma string_app_assoc (a b c : string) : (a ++ b) ++ c = a ++ b ++ c.
Proof. induction a as [|x a IH]; simpl; [reflexivity | now rewrite IH]. Qed.

Lemma includes_char_cons (c a : ascii) (s : string) :
  Str.includes (String a s) (String c "")
  = Ascii.eqb c a || Str.includes s (String c "").
Proof.
  simpl. destruct (ascii_dec c a) as [->|n].
  - rewrite Ascii.eqb_refl. now destruct s.
  - apply Ascii.eqb_neq in n. now rewrite n.
Qed.

Lemma includes_char_nil (c : ascii) : Str.includes "" (String c "") = false.
Proof. reflexivity. Qed.

Lemma includes_char_app (c : ascii) (a b : string) :
  Str.includes (a ++ b) (String c "")
  = Str.includes a (String c "") || Str.includes b (String c "").
Proof.
  induction a as [|x a IH].
  - reflexivity.
  - change (String x a ++ b) with (String x (a ++ b)).
    rewrite !includes_char_cons, IH. apply orb_assoc.
Qed.

Lemma split_without_separator (c : ascii) (s : string) :
  Str.includes s (String c "") = false -> Str.split c s = [s].
Proof.
  induction s as [|x s IH]; [reflexivity|].
  rewrite includes_char_cons. intros H.
  apply orb_false_iff in H. destruct H as [Hx Hs].
  simpl. rewrite Ascii.eqb_sym, Hx, (IH Hs). reflexivity.
Qed.

Lemma split_at_first_separator (c : ascii) (a b : string) :
  Str.includes a (String c "") = false ->
  Str.split c (a ++ String c b) = a :: Str.split c b.
Proof.
  induction a as [|x a IH].
  - intros _. simpl. now rewrite Ascii.eqb_refl.
  - rewrite includes_char_cons. intros H.
    apply orb_false_iff in H. destruct H as [Hx Ha].
    simpl. rewrite Ascii.eqb_sym, Hx, (IH Ha). reflexivity.
Qed.

Lemma base64Char_not_comma (n : N) : Ascii.eqb "," (Web.base64Char n) = false.
Proof.
  unfold Web.base64Char. generalize (N.to_nat n). intros k.
  do 64 (destruct k as [|k]; [reflexivity|]). reflexivity.
Qed.

Lemma list_ind3 {A} (P : list A -> Prop) :
  P [] -> (forall a, P [a]) -> (forall a b, P [a; b]) ->
  (forall a b c l, P l -> P (a :: b :: c :: l)) ->
  forall l, P l.
Proof.
  intros H0 H1 H2 H3. fix IH 1.
  intros [|a [|b [|c l]]];
    [exact H0 | apply H1 | apply H2 | apply H3, IH].
Qed.

Lemma base64_without_comma (bs : list Byte.byte) :
  Str.includes (Web.base64 bs) "," = false.
Proof.
  induction bs as [|a|a b|a b c l IH] using list_ind3.
  - reflexivity.
  - cbn [Web.base64].
    rewrite !includes_char_cons, !base64Char_not_comma. reflexivity.
  - cbn [Web.base64].
    rewrite !includes_char_cons, !base64Char_not_comma. reflexivity.
  - cbn [Web.base64].
    rewrite !includes_char_cons, !base64Char_not_comma, IH. reflexivity.
Qed.

Lemma dataURL_split (f : Web.File) (bs : list Byte.byte) :
  Str.includes (Web.type f) "," = false ->
  Str.split "," (Web.dataURL f bs)
  = [("data:" ++ Web.type f ++ ";base64"); Web.base64 bs].
Proof.
  intros H. unfold Web.dataURL.
  replace ("data:" ++ Web.type f ++ ";base64," ++ Web.base64 bs)
    with (("data:" ++ Web.type f ++ ";base64") ++ String "," (Web.base64 bs)).
  - rewrite split_at_first_separator.
    + now rewrite (split_without_separator _ _ (base64_without_comma bs)).
    + change "data:" with ("data:" ++ "").
      rewrite !includes_char_app, H. reflexivity.
  - rewrite !string_app_assoc. reflexivity.
Qed.

Lemma supported_is_not_text (mime : string) :
  GeminiService.isSupportedMimeType mime = true ->
  Str.startsWith mime "text/" = false.
Proof.
  unfold GeminiService.isSupportedMimeType, Str.startsWith.
  destruct mime as [|a m]; [discriminate|].
  cbn [String.prefix]. destruct (ascii_dec "t" a) as [<-|_]; [|reflexivity].
  intros H. cbv in H. discriminate.
Qed.

Section NormalizerFacts.

Import GeminiService.

(** C5, as stated, fails: a file with an image type whose name ends in
    [.txt] takes the text branch, is read as text and yields one text
    part. *)
Lemma C5_counterexample_text_extension_first :
  isSupportedMimeType (Web.type Sample.pngNamedTxt) = true
  /\ buildParts (FileInput Sample.pngNamedTxt)
     = ([ReadAsText Sample.pngNamedTxt],
        Return [TextPart (textPrompt (Web.text [Byte.x89; Byte.x50; Byte.x4e]))]).
Proof. split; reflexivity. Qed.

(** C5, amended. For every file whose MIME type is application/pdf or
    starts with image/ or video/, whose name does not end in .txt, .md,
    .csv or .json, whose type holds no comma and whose read succeeds, the
    normalizer reads the file as a data URL and produces exactly two
    parts: a binary part with the file's MIME type and the base64 of its
    bytes, then a text instruction part. *)
Theorem C5_supported_binary_two_parts (f : Web.File) (bs : list Byte.byte) :
  isSupportedMimeType (Web.type f) = true ->
  Str.endsWith (Web.name f) ".txt" = false ->
  Str.endsWith (Web.name f) ".md" = false ->
  Str.endsWith (Web.name f) ".csv" = false ->
  Str.endsWith (Web.name f) ".json" = false ->
  Str.includes (Web.type f) "," = false ->
  Web.bytes f = Some bs ->
  buildParts (FileInput f)
  = ([ReadAsDataURL f],
     Return [InlineData (Web.type f) (Some (Web.base64 bs));
             TextPart (binaryPrompt (Web.type f))]).
Proof.
  intros Hs H1 H2 H3 H4 Hc Hb. unfold buildParts, isTextLike.
  rewrite (supported_is_not_text _ Hs), H1, H2, H3, H4, Hs. cbn [orb].
  unfold fileToBase64. rewrite Hb, (dataURL_split f bs Hc). reflexivity.
Qed.

Lemma C5_witness :
  buildParts (FileInput Sample.png)
  = ([ReadAsDataURL Sample.png],
     Return [InlineData "image/png" (Some "iVBO");
             TextPart (binaryPrompt "image/png")]).
Proof.
  exact (C5_supported_binary_two_parts Sample.png
           [Byte.x89; Byte.x50; Byte.x4e]
           eq_refl eq_refl eq_refl eq_refl eq_refl eq_refl eq_refl).
Defined.

(** C6. For every file that is neither text-like nor a supported binary
    the normalizer produces exactly one text part, which contains the
    file's name, its byte size in decimal and its declared MIME type; it
    reads nothing, and what the file holds does not matter. *)
Theorem C6_unsupported_file_metadata_only (f : Web.File) :
  isTextLike f = false ->
  isSupportedMimeType (Web.type f) = false ->
  buildParts (FileInput f) = ([], Return [TextPart (metadataPrompt f)])
  /\ Str.includes (metadataPrompt f) (Web.name f) = true
  /\ Str.includes (metadataPrompt f) (Str.ofN (Web.size f)) = true
  /\ Str.includes (metadataPrompt f) (Web.type f) = true
  /\ forall content,
       buildParts
         (FileInput (Web.mkFile (Web.name f) (Web.type f) (Web.size f) content))
       = buildParts (FileInput f).
Proof.
  intros Ht Hs.
  assert (E : forall g, isTextLike g = false ->
                isSupportedMimeType (Web.type g) = false ->
                buildParts (FileInput g) = ([], Return [TextPart (metadataPrompt g)])).
  { intros g H1 H2. unfold buildParts. now rewrite H1, H2. }
  split; [exact (E f Ht Hs)|].
  unfold metadataPrompt. repeat split.
  - do 4 apply includes_app_l. apply includes_prefix, prefix_app.
  - do 7 apply includes_app_l. apply includes_prefix, prefix_app.
  - do 11 apply includes_app_l. apply includes_prefix, prefix_app.
  - intros content. rewrite (E f Ht Hs).
    exact (E (Web.mkFile (Web.name f) (Web.type f) (Web.size f) content) Ht Hs).
Qed.

Lemma C6_witness :
  buildParts (FileInput Sample.docx)
  = ([], Return [TextPart (metadataPrompt Sample.docx)]).
Proof.
  exact (proj1 (C6_unsupported_file_metadata_only Sample.docx eq_refl eq_refl)).
Defined.

End NormalizerFacts.

(** ** The rate-limit test *)

Section ClassificationFacts.

Import GeminiService.

Lemma get_getOpt (v : jsval) (k : string) :
  JS.nullish v = false -> JS.get v k = Return (JS.getOpt v k).
Proof.
  unfold JS.getOpt. destruct v; try discriminate; intros _; try reflexivity.
  simpl. destruct (String.eqb k "message"); reflexivity.
Qed.

Lemma errorCode_firstTruthy (error : jsval) :
  JS.nullish error = false ->
  errorCode error
  = Return (JS.firstTruthy
              [JS.getOpt error "status"; JS.getOpt error "code";
               JS.getOpt (JS.getOpt error "error") "code";
               JS.getOpt (JS.getOpt error "error") "status"]).
Proof.
  intros H. unfold errorCode. rewrite !(get_getOpt _ _ H).
  cbn [bind JS.firstTruthy JS.or].
  destruct (JS.truthy (JS.getOpt error "status")); [reflexivity|].
  destruct (JS.truthy (JS.getOpt error "code")); reflexivity.
Qed.

Lemma errorMessage_firstTruthy (error : jsval) :
  JS.nullish error = false ->
  errorMessage error
  = Return (JS.firstTruthy
              [JS.getOpt error "message";
               JS.getOpt (JS.getOpt error "error") "message";
               JSON.stringifyVal error]).
Proof.
  intros H. unfold errorMessage. rewrite !(get_getOpt _ _ H).
  cbn [bind JS.firstTruthy JS.or].
  destruct (JS.truthy (JS.getOpt error "message")); reflexivity.
Qed.

Lemma isRateLimit_nullish (error : jsval) :
  JS.nullish error = true ->
  isRateLimit error = Throw (JS.TypeError_read error "status").
Proof. destruct error; try discriminate; reflexivity. Qed.

Lemma strictEqNum_true (v : jsval) (n : Z) :
  JS.strictEqNum v n = true <-> v = JNum n.
Proof.
  destruct v; simpl; try (split; [discriminate | intros [=]]).
  rewrite Z.eqb_eq. split; [now intros -> | now intros [=]].
Qed.

Lemma strictEqStr_true (v : jsval) (s : string) :
  JS.strictEqStr v s = true <-> v = JStr s.
Proof.
  destruct v; simpl; try (split; [discriminate | intros [=]]).
  rewrite String.eqb_eq. split; [now intros -> | now intros [=]].
Qed.

Lemma messageMatches_true (v : jsval) :
  messageMatches v = true <->
  exists m, v = JStr m
    /\ (Str.includes m "429" = true \/ Str.includes m "quota" = true
        \/ Str.includes m "RESOURCE_EXHAUSTED" = true).
Proof.
  destruct v; simpl;
    try (split; [discriminate | intros (m & [=] & _)]).
  rewrite !orb_true_iff. split.
  - intros [[H|H]|H]; exists s; auto.
  - intros (m & [= ->] & [H|[H|H]]); auto.
Qed.

(** C3, as stated, fails: a thrown object with no status, no code and no
    message is classified as rate-limited when its JSON text contains one
    of the markers. *)
Lemma C3_counterexample_serialized_error :
  JS.get Sample.quotaObject "status" = Return JUndefined
  /\ JS.get Sample.quotaObject "code" = Return JUndefined
  /\ JS.get Sample.quotaObject "message" = Return JUndefined
  /\ Stated.rateLimited Sample.quotaObject = false
  /\ isRateLimit Sample.quotaObject = Return true.
Proof. repeat split. Qed.

(** C3, amended. For every error value other than [null] and
    [undefined], the requester classifies it as rate-limited if and only
    if the first truthy value among its status, its code, its nested
    error.code and its nested error.status is the number 429 or the string
    RESOURCE_EXHAUSTED, or the first truthy value among its message, its
    nested error.message and, failing both, the JSON text of the whole
    error is a string that contains 429, quota or RESOURCE_EXHAUSTED (case
    sensitive); every other such error is classified as not rate-limited. *)
Theorem C3_rate_limit_classification (error : jsval) :
  JS.nullish error = false ->
  let code :=
    JS.firstTruthy
      [JS.getOpt error "status"; JS.getOpt error "code";
       JS.getOpt (JS.getOpt error "error") "code";
       JS.getOpt (JS.getOpt error "error") "status"] in
  let message :=
    JS.firstTruthy
      [JS.getOpt error "message";
       JS.getOpt (JS.getOpt error "error") "message";
       JSON.stringifyVal error] in
  exists rateLimited,
    isRateLimit error = Return rateLimited
    /\ (rateLimited = true <->
        code = JNum 429 \/ code = JStr "RESOURCE_EXHAUSTED"
        \/ exists m, message = JStr m
             /\ (Str.includes m "429" = true \/ Str.includes m "quota" = true
                 \/ Str.includes m "RESOURCE_EXHAUSTED" = true)).
Proof.
  intros H code message. unfold isRateLimit.
  rewrite (errorCode_firstTruthy _ H), (errorMessage_firstTruthy _ H).
  cbn [bind]. fold code message. eexists. split; [reflexivity|].
  rewrite !orb_true_iff, strictEqNum_true, strictEqStr_true,
    messageMatches_true.
  tauto.
Qed.

Lemma C3_witness : isRateLimit Sample.apiError429 = Return true.
Proof.
  destruct (C3_rate_limit_classification Sample.apiError429 eq_refl)
    as (b & E & Hb).
  rewrite E. f_equal. apply Hb. left. reflexivity.
Defined.

End ClassificationFacts.

(** ** The report *)

Section ReportFacts.

Import GeminiService.

Lemma ioBind_returns {A B} (m : io A) (k : A -> io B) (b : B) :
  snd (ioBind m k) = Return b ->
  exists a, snd m = Return a /\ snd (k a) = Return b.
Proof.
  unfold ioBind. destruct (snd m) as [a|e]; cbn [snd]; [|discriminate].
  intros H. exists a. split; [reflexivity | exact H].
Qed.

Lemma analyzeAsset_returns JSON_parse generateContent apiKey inp report :
  snd (analyzeAsset JSON_parse generateContent apiKey inp) = Return report ->
  exists parts,
    snd (buildParts inp) = Return parts
    /\ snd (requester JSON_parse generateContent parts) = Return report.
Proof.
  unfold analyzeAsset. destruct apiKey as [[|c key]|]; try discriminate.
  apply ioBind_returns.
Qed.

(** C9, as stated, fails: a response with the five required fields and
    nothing else is returned as it is, and its other fields are undefined,
    not empty collections; the response [{}] is returned as an object with
    no field at all. *)
Lemma C9_counterexample_absent_fields_stay_absent :
  analyzeAsset JSON.parse (Sample.answering Sample.minimalText) (Some "key")
    (Url "https://example.org/a")
  = ([GenerateContent Sample.urlParts], Return Sample.minimalReport)
  /\ JS.get Sample.minimalReport "key_evidence" = Return JUndefined
  /\ Stated.reportInvariant Sample.minimalReport Sample.minimalReport = false
  /\ analyzeAsset JSON.parse (Sample.answering "{}") (Some "key")
       (Url "https://example.org/a")
     = ([GenerateContent Sample.urlParts], Return (JObj []))
  /\ JS.get (JObj []) "case_id" = Return JUndefined
  /\ Stated.reportInvariant (JObj []) (JObj []) = false.
Proof. repeat split. Qed.

(** C9, amended. The report that [analyzeAsset] returns is the value that
    [JSON.parse] yields for the response text of one of the at most five
    attempts, as it is: no field is checked for presence and none is
    defaulted. *)
Theorem C9_report_is_the_parsed_response
    JSON_parse generateContent apiKey inp (report : jsval) :
  snd (analyzeAsset JSON_parse generateContent apiKey inp) = Return report ->
  exists parts i t,
    snd (buildParts inp) = Return parts
    /\ i < 5
    /\ generateContent i parts = Responds (Some t)
    /\ t <> ""
    /\ JSON_parse t = Return report.
Proof.
  intros H. apply analyzeAsset_returns in H. destruct H as (parts & B & R).
  apply requester_returns_parsed in R. destruct R as (i & t & R).
  exists parts, i, t. split; [exact B | exact R].
Qed.

Lemma C9_witness :
  exists parts i t,
    snd (buildParts (FileInput Sample.png)) = Return parts
    /\ i < 5
    /\ Sample.failing 2 i parts = Responds (Some t)
    /\ t <> ""
    /\ JSON.parse t = Return Sample.minimalReport.
Proof.
  exact (C9_report_is_the_parsed_response JSON.parse (Sample.failing 2)
           (Some "key") (FileInput Sample.png) Sample.minimalReport eq_refl).
Defined.

End ReportFacts.

(** ** The controller *)

Section ControllerFacts.

Import GeminiService App.

Lemma maxFileSize_value : maxFileSize = 52428800%N.
Proof. reflexivity. Qed.


Lemma onScanComplete_with_report (s : state) :
  JS.truthy (report s) = true ->
  onScanComplete s = setAppState REPORT_READY s.
Proof. unfold onScanComplete. now intros ->. Qed.




Lemma handle_sizeChecked (ev : event) (c : config) :
  Inv.sizeChecked c -> Inv.sizeChecked (handle ev c).
Proof.
  destruct c as [[a m f u r e] p l]. unfold Inv.sizeChecked.
  cbn [st log file]. intros [Hf Hl].
  destruct ev as [files|url|mode| | | |outcome]; cbn [handle st log].
  - unfold handleFileChange.
    destruct files as [[|g rest]|]; cbn [fst snd rev app]; try (split; assumption).
    destruct (N.ltb maxFileSize (Web.size g)) eqn:E;
      cbn [fst snd rev app setFile file].
    + split; [exact Hf|]. intros h [H|H]; [discriminate | auto].
    + split; [|exact Hl]. intros h [= <-]. now apply N.ltb_ge in E.
  - split; assumption.
  - split; [|exact Hl]. intros h H. discriminate.
  - unfold startScan, currentAsset. cbn [inputMode file urlInput].
    destruct m; [destruct f as [f|] | destruct (String.eqb u "")];
      cbn [option_map fst snd rev app setError setAppState file];
      try (split; assumption).
    + split; [exact Hf|].
      intros h [[= <-]|H]; [apply Hf; reflexivity | auto].
    + split; [exact Hf|]. intros h [H|H]; [discriminate | auto].
  - split; [|exact Hl]. unfold onScanComplete. cbn [report].
    destruct (JS.truthy r); exact Hf.
  - split; [|exact Hl]. intros h H. discriminate.
  - destruct outcome;
      cbn [startScanSettled fst snd rev app setReport setError setAppState
             file].
    + split; assumption.
    + split; [exact Hf|]. intros h [H|H]; [discriminate | auto].
Qed.

Lemma run_sizeChecked (evs : list event) :
  forall c, Inv.sizeChecked c -> Inv.sizeChecked (run evs c).
Proof.
  induction evs as [|ev evs IH]; intros c H; [exact H|].
  apply IH, handle_sizeChecked, H.
Qed.

(** C7. A file above 50 MiB handed to [handleFileChange] is refused with
    an alert: the controller's state, the current file and the application
    state included, is left as it was, and [analyzeAsset] is not called.
    Hence, whatever the events, no file above 50 MiB is ever the current
    file or handed to [analyzeAsset]. *)
Theorem C7_oversized_file_rejected :
  (forall (s : state) (f : Web.File) (others : list Web.File),
      (50 * 1024 * 1024 < Web.size f)%N ->
      handleFileChange (Some (f :: others)) s = (s, [Alert fileTooLarge]))
  /\ (forall evs, Inv.sizeChecked (run evs start)).
Proof.
  split.
  - intros s f others H. unfold handleFileChange.
    apply N.ltb_lt in H. fold maxFileSize in H. now rewrite H.
  - intros evs. apply run_sizeChecked. split.
    + intros f H. discriminate.
    + intros f [].
Qed.

Lemma C7_witness :
  handleFileChange (Some [Sample.oversized]) Sample.scanning
  = (Sample.scanning, [Alert fileTooLarge]).
Proof.
  exact (proj1 C7_oversized_file_rejected Sample.scanning Sample.oversized []
               eq_refl).
Defined.

(** C8, as stated, fails: after a reset during a scan, a late response is
    stored in the report slot, and a late error moves the state to [ERROR]
    and sets the error message. *)
Lemma C8_counterexample_late_outcome_is_applied :
  appState (st Sample.resetWhileScanning) = IDLE
  /\ pending Sample.resetWhileScanning = 1
  /\ report (st (handle (AnalyzeSettled (Return Sample.minimalReport))
                   Sample.resetWhileScanning))
     = Sample.minimalReport
  /\ appState (st (handle (AnalyzeSettled (Throw Sample.apiError400))
                     Sample.resetWhileScanning))
     = ERROR
  /\ error (st (handle (AnalyzeSettled (Throw Sample.apiError400))
                  Sample.resetWhileScanning))
     = Some scanFailed.
Proof. repeat split. Qed.

(** C8, amended. When a scan is started and the page is reset before
    [analyzeAsset] settles, the reset clears the asset, the report and the
    error and returns to [IDLE], and the late outcome is applied all the
    same: a late response is stored in the report slot, the state staying
    [IDLE] and the asset and error slots cleared; a late error moves the
    state to [ERROR] and records the error message, the asset and report
    slots staying cleared. *)
Theorem C8_late_outcome_after_reset
    (s : state) (asset : input) (data err : jsval) :
  currentAsset s = Some asset ->
  let scanning := fst (startScan s) in
  let cleared := resetApp scanning in
  appState scanning = SCANNING
  /\ cleared = mkState IDLE (inputMode s) None "" JNull None
  /\ fst (startScanSettled (Return data) cleared)
     = mkState IDLE (inputMode s) None "" data None
  /\ fst (startScanSettled (Throw err) cleared)
     = mkState ERROR (inputMode s) None "" JNull (Some scanFailed).
Proof.
  intros H scanning cleared. unfold cleared, scanning, startScan.
  rewrite H. repeat split.
Qed.

Lemma C8_witness :
  fst (startScanSettled (Throw Sample.apiError400)
         (resetApp Sample.scanning))
  = mkState ERROR FileMode None "" JNull (Some scanFailed).
Proof.
  exact (proj2 (proj2 (proj2
           (C8_late_outcome_after_reset
              (st (run [FilesChosen (Some [Sample.png])] start))
              (FileInput Sample.png) JNull Sample.apiError400 eq_refl)))).
Defined.

Lemma start_holds : Inv.holds start.
Proof. repeat split; try discriminate. cbn. lia. Qed.

Lemma handle_holds (ev : event) (c : config) :
  Inv.holds c -> enabled ev c = true -> Inv.holds (handle ev c).
Proof.
  destruct c as [[a m f u r e] p l]. unfold Inv.holds.
  cbn [st pending appState report]. intros (P1 & P2 & R & I & E) En.
  assert (P0 : a <> SCANNING -> p = 0).
  { intros H. destruct p as [|[|p]]; [reflexivity | | lia].
    destruct P2 as [P2 _]; [reflexivity | contradiction]. }
  destruct ev as [files|url|mode| | | |outcome];
    cbn [handle enabled st pending appState report] in *.
  - unfold handleFileChange.
    destruct files as [[|g rest]|]; cbn [fst]; try tauto.
    destruct (N.ltb _ _); cbn [fst setFile appState report]; tauto.
  - cbn [setUrlInput appState report]. tauto.
  - cbn [navButton setUrlInput setFile setInputMode appState report]. tauto.
  - destruct a; try discriminate.
    unfold startScan. destruct (currentAsset _); cbn [fst snd]; [|tauto].
    cbn [filter isCall List.length setError setAppState appState report].
    rewrite P0 by discriminate.
    repeat split; try discriminate; try lia. now apply I.
  - unfold onScanComplete. cbn [report].
    destruct (JS.truthy r) eqn:T; cbn [setAppState appState report];
      rewrite ?T; [|tauto].
    assert (p = 0) as ->.
    { destruct p as [|[|p]]; [reflexivity | | lia].
      destruct P2 as [_ P2]; [reflexivity | congruence]. }
    repeat split; try discriminate; try lia; assumption.
  - cbn [resetApp setError setReport setUrlInput setFile setAppState
           appState report].
    assert (p = 0) as ->.
    { apply P0. destruct a; discriminate. }
    repeat split; try discriminate; try lia.
  - apply Nat.ltb_lt in En. assert (p = 1) as -> by lia.
    destruct P2 as [-> Pr]; [reflexivity|].
    destruct outcome as [data|err];
      cbn [startScanSettled fst setReport setError setAppState appState
             report Nat.pred];
      repeat split; try discriminate; try lia; try assumption.
    intros _. exact Pr.
Qed.

Lemma reachable_holds (c : config) : reachable c -> Inv.holds c.
Proof.
  induction 1 as [|c ev _ IH En]; [exact start_holds|].
  apply handle_holds; assumption.
Qed.

Lemma allowed_reachable (evs : list event) :
  forall c, reachable c -> allowed evs c = true -> reachable (run evs c).
Proof.
  induction evs as [|ev evs IH]; intros c Hc Ha; [exact Hc|].
  cbn [allowed] in Ha. apply andb_prop in Ha. destruct Ha as [En Ha].
  cbn [run fold_left]. apply IH; [|exact Ha].
  apply reachable_step; assumption.
Qed.





End ControllerFacts.

(** * Further properties *)

(** ** Every run of the requester *)

Lemma schedule_succ (delay : N) (k : nat) :
  Backoff.schedule delay (S k) = delay :: Backoff.schedule (delay * 2) k.
Proof.
  unfold Backoff.schedule. cbn [seq map]. f_equal.
  - cbn. lia.
  - rewrite <- seq_shift, map_map. apply map_ext. intros i.
    rewrite Nat2N.inj_succ, N.pow_succ_r'. lia.
Qed.

Lemma requests_app (a b : list effect) :
  requests (a ++ b)%list = (requests a ++ requests b)%list.
Proof. apply flat_map_app. Qed.

Lemma sleeps_app (a b : list effect) :
  sleeps (a ++ b)%list = (sleeps a ++ sleeps b)%list.
Proof. apply flat_map_app. Qed.

Section RunFacts.

Variable JSON_parse : string -> completion jsval.
Variable generateContent : nat -> list part -> GeminiService.response.
Variable parts : list part.

Import GeminiService.

Local Abbreviation tryBody := (tryBody JSON_parse generateContent parts).
Local Abbreviation requestLoop := (requestLoop JSON_parse generateContent parts).
Local Abbreviation requester := (requester JSON_parse generateContent parts).
Local Abbreviation rateLimitedAt := (rateLimitedAt JSON_parse generateContent parts).

(** The shape of the trace of the loop from any state: one more request
    than sleeps, the payload the same in each request, the sleeps doubling
    from the current delay, no file read. *)
Lemma loop_shape n :
  forall attempts delay calls,
    maxAttempts - attempts = n ->
    exists k,
      k <= Nat.pred n
      /\ requests (fst (requestLoop attempts delay calls)) = repeat parts (S k)
      /\ sleeps (fst (requestLoop attempts delay calls))
         = Backoff.schedule delay k
      /\ existsb isRead (fst (requestLoop attempts delay calls)) = false.
Proof.
  induction n as [|n IH]; intros attempts delay calls Hn;
    destruct (tryBody calls) as [a|e] eqn:T.
  1, 3: rewrite (loop_return _ _ _ _ _ _ a T); exists 0;
    repeat split; lia.
  all: destruct (isRateLimit e) as [[|]|te] eqn:R.
  all: try (rewrite (loop_fatal _ _ _ _ _ _ e T R); exists 0;
            repeat split; lia).
  all: try (rewrite (loop_crash _ _ _ _ _ _ e te T R); exists 0;
            repeat split; lia).
  - rewrite (loop_exhausted _ _ _ _ _ _ e T R) by lia.
    exists 0. repeat split; lia.
  - destruct (le_lt_dec maxAttempts (S attempts)) as [L|L].
    + rewrite (loop_exhausted _ _ _ _ _ _ e T R L). exists 0.
      repeat split; lia.
    + rewrite (loop_retry _ _ _ _ _ _ e T R L).
      destruct (IH (S attempts) (delay * 2)%N (S calls)) as (k & Hk & Hr & Hs & Hd);
        [lia|].
      exists (S k). cbn [fst prepend].
      rewrite requests_app, sleeps_app, existsb_app, Hr, Hs, Hd, schedule_succ.
      repeat split. unfold maxAttempts in *. lia.
Qed.

(** X1. Whatever the remote model and [JSON.parse] do, a run of the
    requester makes [k + 1] requests for some [k <= 4], each with the same
    payload, and sleeps [k] times in between, 4000 * 2^i ms the i-th time;
    it never sleeps more than 60 s in all. *)
Theorem requester_run_shape :
  exists k,
    k <= 4
    /\ requests (fst requester) = repeat parts (S k)
    /\ sleeps (fst requester) = Backoff.schedule 4000 k
    /\ (Backoff.total (sleeps (fst requester)) <= 60000)%N.
Proof.
  destruct (loop_shape 5 0 4000%N 0 eq_refl) as (k & Hk & Hr & Hs & _).
  exists k. unfold GeminiService.requester, initialDelay.
  rewrite Hr, Hs. repeat split; [exact Hk|].
  cbn in Hk.
  destruct k as [|[|[|[|[|k]]]]]; [cbn; lia .. | lia].
Qed.

Lemma succeeds_after_retries k report :
  forall attempts delay calls,
    attempts + k < maxAttempts ->
    (forall i, i < k -> rateLimitedAt (calls + i)) ->
    tryBody (calls + k) = Return report ->
    snd (requestLoop attempts delay calls) = Return report
    /\ requests (fst (requestLoop attempts delay calls)) = repeat parts (S k)
    /\ sleeps (fst (requestLoop attempts delay calls))
       = Backoff.schedule delay k.
Proof.
  induction k as [|k IH]; intros attempts delay calls Ha Hf Hr.
  - rewrite Nat.add_0_r in Hr.
    rewrite (loop_return _ _ _ _ _ _ report Hr). repeat split.
  - destruct (Hf 0) as (e & T & R); [lia|]. rewrite Nat.add_0_r in T.
    rewrite (loop_retry _ _ _ _ _ _ e T R) by lia.
    destruct (IH (S attempts) (delay * 2)%N (S calls)) as (Hs & Hq & Hd).
    + lia.
    + intros i Hi. replace (S calls + i) with (calls + S i) by lia.
      apply Hf. lia.
    + replace (S calls + k) with (calls + S k) by lia. exact Hr.
    + cbn [fst snd prepend].
      rewrite requests_app, sleeps_app, Hq, Hd, schedule_succ.
      repeat split. exact Hs.
Qed.

(** X2. When the first [k] attempts, [k < 5], fail with a rate-limited
    error and the next one yields a report, the requester returns that
    report after [k + 1] requests and [k] sleeps of 4000 * 2^i ms; with
    [k = 0] it does not sleep at all. *)
Theorem requester_succeeds_after_k_retries (k : nat) (report : jsval) :
  k < 5 ->
  (forall i, i < k -> rateLimitedAt i) ->
  tryBody k = Return report ->
  snd requester = Return report
  /\ requests (fst requester) = repeat parts (S k)
  /\ sleeps (fst requester) = Backoff.schedule 4000 k.
Proof.
  intros Hk Hf Hr.
  apply (succeeds_after_retries k report 0 4000%N 0); [exact Hk | exact Hf | exact Hr].
Qed.

Lemma isRateLimit_plain_error (name m : string) :
  isRateLimit (JError name m []) = Return (messageMatches (JStr m)).
Proof.
  unfold isRateLimit, errorCode, errorMessage.
  cbn [JS.get JS.getOpt JS.lookup bind JS.truthy JS.or String.eqb Ascii.eqb
         Bool.eqb andb].
  destruct m as [|c m]; [reflexivity|].
  cbn [JS.truthy String.eqb negb bind JS.strictEqNum JS.strictEqStr orb].
  reflexivity.
Qed.

(** X3. A response whose text is undefined or empty ends the run at
    once, at whatever attempt: the error [No response from AI] is thrown
    after that one request, with no sleep and no retry. *)
Theorem empty_response_is_fatal attempts delay calls :
  generateContent calls parts = Responds None
  \/ generateContent calls parts = Responds (Some "") ->
  requestLoop attempts delay calls
  = ([GenerateContent parts;
      ConsoleError (JS.Error "No response from AI")],
     Throw (JS.Error "No response from AI")).
Proof.
  intros H. apply loop_fatal; [|reflexivity].
  unfold GeminiService.tryBody. destruct H as [-> | ->]; reflexivity.
Qed.

(** X4. A response that [JSON.parse] rejects is not fatal as such:
    the error it throws goes through the same test.  When its message
    contains 429, quota or RESOURCE_EXHAUSTED and attempts are left, the
    requester warns, sleeps and asks again; when the message contains none
    of them, or no attempt is left, the error is logged and thrown at
    once. *)
Theorem parse_failure_is_classified_by_its_message
    attempts delay calls (t name m : string) :
  generateContent calls parts = Responds (Some t) ->
  t <> "" ->
  JSON_parse t = Throw (JError name m []) ->
  (messageMatches (JStr m) = true ->
   S attempts < maxAttempts ->
   requestLoop attempts delay calls
   = prepend [GenerateContent parts;
              ConsoleWarn (retryWarning delay (S attempts));
              Sleep delay]
             (requestLoop (S attempts) (delay * 2) (S calls)))
  /\ (messageMatches (JStr m) = false \/ maxAttempts <= S attempts ->
      requestLoop attempts delay calls
      = ([GenerateContent parts; ConsoleError (JError name m [])],
         Throw (JError name m []))).
Proof.
  intros G Ht P.
  assert (T : tryBody calls = Throw (JError name m [])).
  { rewrite (tryBody_parsed _ _ _ _ _ G Ht). exact P. }
  assert (R : isRateLimit (JError name m [])
              = Return (messageMatches (JStr m)))
    by (rewrite isRateLimit_plain_error; reflexivity).
  split.
  - intros M L. apply (loop_retry _ _ _ _ _ _ _ T); [|exact L].
    rewrite R, M. reflexivity.
  - intros H. destruct (messageMatches (JStr m)) eqn:M.
    + destruct H as [H|L]; [discriminate|].
      apply loop_exhausted; [exact T | exact R | exact L].
    + apply loop_fatal; [exact T | exact R].
Qed.

(** X5. When the remote call rejects with [null] or [undefined],
    the catch block itself fails on reading the error's status: the run
    ends after that one request with a TypeError in place of the rejected
    value, without retry and without the error log. *)
Theorem nullish_rejection_becomes_type_error attempts delay calls (e : jsval) :
  generateContent calls parts = Rejects e ->
  JS.nullish e = true ->
  requestLoop attempts delay calls
  = ([GenerateContent parts], Throw (JS.TypeError_read e "status")).
Proof.
  intros G N. apply (loop_crash _ _ _ _ _ _ e).
  - unfold GeminiService.tryBody. now rewrite G.
  - apply isRateLimit_nullish, N.
Qed.

End RunFacts.

Lemma requester_succeeds_after_k_retries_witness :
  snd (GeminiService.requester JSON.parse (Sample.failing 2) Sample.urlParts)
  = Return Sample.minimalReport
  /\ requests
       (fst (GeminiService.requester JSON.parse (Sample.failing 2)
               Sample.urlParts))
     = repeat Sample.urlParts 3
  /\ sleeps
       (fst (GeminiService.requester JSON.parse (Sample.failing 2)
               Sample.urlParts))
     = Backoff.schedule 4000 2.
Proof.
  exact (requester_succeeds_after_k_retries JSON.parse (Sample.failing 2)
           Sample.urlParts 2 Sample.minimalReport
           ltac:(lia) (fun i Hi => failing_rateLimitedAt 2 i _ Hi) eq_refl).
Defined.

Lemma empty_response_is_fatal_witness :
  GeminiService.requestLoop JSON.parse (Sample.answering "") Sample.urlParts
    0 4000 0
  = ([GenerateContent Sample.urlParts;
      ConsoleError (JS.Error "No response from AI")],
     Throw (JS.Error "No response from AI")).
Proof.
  exact (empty_response_is_fatal JSON.parse (Sample.answering "")
           Sample.urlParts 0 4000%N 0 (or_intror eq_refl)).
Defined.

Lemma parse_failure_witness :
  JSON.parse "quota exceeded"
  = Throw (JSON.SyntaxError
             ("Unexpected token 'q', " ++ String "034" "quota exceeded"
                ++ String "034" " is not valid JSON"))
  /\ GeminiService.requestLoop JSON.parse (Sample.answering "quota exceeded")
       Sample.urlParts 0 4000 0
     = GeminiService.prepend
         [GenerateContent Sample.urlParts;
          ConsoleWarn (GeminiService.retryWarning 4000 1);
          Sleep 4000]
         (GeminiService.requestLoop JSON.parse
            (Sample.answering "quota exceeded") Sample.urlParts 1 8000 1)
  /\ GeminiService.requestLoop JSON.parse (Sample.answering "quota exceeded")
       Sample.urlParts 4 64000 4
     = ([GenerateContent Sample.urlParts;
         ConsoleError (JSON.SyntaxError (JSON.quoted "quota exceeded"))],
        Throw (JSON.SyntaxError (JSON.quoted "quota exceeded")))
  /\ requests
       (fst (GeminiService.requester JSON.parse
               (Sample.answering "quota exceeded") Sample.urlParts))
     = repeat Sample.urlParts 5.
Proof.
  split; [reflexivity|]. split; [|split; [|reflexivity]].
  - refine (proj1 (parse_failure_is_classified_by_its_message JSON.parse
                     (Sample.answering "quota exceeded") Sample.urlParts
                     0 4000%N 0 "quota exceeded" "SyntaxError"
                     (JSON.quoted "quota exceeded") eq_refl _ eq_refl)
                  eq_refl _).
    + discriminate.
    + unfold GeminiService.maxAttempts. lia.
  - refine (proj2 (parse_failure_is_classified_by_its_message JSON.parse
                     (Sample.answering "quota exceeded") Sample.urlParts
                     4 64000%N 4 "quota exceeded" "SyntaxError"
                     (JSON.quoted "quota exceeded") eq_refl _ eq_refl)
                  (or_intror _)).
    + discriminate.
    + unfold GeminiService.maxAttempts. lia.
Defined.

Lemma nullish_rejection_witness :
  GeminiService.requestLoop JSON.parse Sample2.rejectingNull Sample.urlParts
    0 4000 0
  = ([GenerateContent Sample.urlParts],
     Throw (JS.TypeError_read JNull "status")).
Proof.
  exact (nullish_rejection_becomes_type_error JSON.parse Sample2.rejectingNull
           Sample.urlParts 0 4000%N 0 JNull eq_refl eq_refl).
Defined.

(** ** Sufficient marks of a rate limit *)

Section MoreClassificationFacts.

Import GeminiService.

Lemma getOpt_nullish (v : jsval) (k : string) :
  JS.nullish v = true -> JS.getOpt v k = JUndefined.
Proof. destruct v; try discriminate; reflexivity. Qed.

Lemma messageMatches_nonempty (m : string) :
  messageMatches (JStr m) = true -> JS.truthy (JStr m) = true.
Proof. destruct m; [discriminate | reflexivity]. Qed.

(** X6. A top-level status that is the number 429 or the string
    RESOURCE_EXHAUSTED is enough for an error to be classified as
    rate-limited, and so is a top-level message that is a string
    containing 429, quota or RESOURCE_EXHAUSTED, whatever else the error
    holds. *)
Theorem top_level_status_or_message_suffices (error : jsval) :
  JS.getOpt error "status" = JNum 429
  \/ JS.getOpt error "status" = JStr "RESOURCE_EXHAUSTED"
  \/ (exists m, JS.getOpt error "message" = JStr m
                /\ messageMatches (JStr m) = true) ->
  isRateLimit error = Return true.
Proof.
  intros H.
  assert (N : JS.nullish error = false).
  { destruct (JS.nullish error) eqn:E; [|reflexivity].
    rewrite !(getOpt_nullish _ _ E) in H.
    destruct H as [H|[H|(m & H & _)]]; discriminate. }
  unfold isRateLimit.
  rewrite (errorCode_firstTruthy _ N), (errorMessage_firstTruthy _ N).
  cbn [bind JS.firstTruthy].
  destruct H as [H|[H|(m & H & M)]].
  - rewrite H. reflexivity.
  - rewrite H. reflexivity.
  - rewrite H, (messageMatches_nonempty _ M), M. f_equal. apply orb_true_r.
Qed.

Lemma top_level_status_witness : isRateLimit Sample.apiError429 = Return true.
Proof.
  exact (top_level_status_or_message_suffices Sample.apiError429
           (or_introl eq_refl)).
Defined.

End MoreClassificationFacts.

(** ** Runs of [analyzeAsset] *)

Section AnalyzeFacts.

Import GeminiService.

Variable JSON_parse : string -> completion jsval.
Variable generateContent : nat -> list part -> response.

Local Abbreviation analyzeAsset := (analyzeAsset JSON_parse generateContent).
Local Abbreviation requester := (requester JSON_parse generateContent).

(** What the normalizer does to the world: nothing, or one read of the
    input file. *)
Lemma buildParts_trace (inp : input) :
  fst (buildParts inp) = []
  \/ exists f, inp = FileInput f
       /\ (fst (buildParts inp) = [ReadAsText f]
           \/ fst (buildParts inp) = [ReadAsDataURL f]).
Proof.
  destruct inp as [url|f]; [left; reflexivity|].
  unfold buildParts, fileToText, fileToBase64.
  destruct (isTextLike f); [|destruct (isSupportedMimeType (Web.type f))].
  - right. exists f. split; [reflexivity|]. left.
    destruct (Web.bytes f); reflexivity.
  - right. exists f. split; [reflexivity|]. right.
    destruct (Web.bytes f); reflexivity.
  - left. reflexivity.
Qed.

Lemma analyzeAsset_trace (apiKey : option string) (inp : input) :
  fst (analyzeAsset apiKey inp) = []
  \/ (fst (analyzeAsset apiKey inp) = fst (buildParts inp)
      /\ exists e, snd (buildParts inp) = Throw e
                   /\ snd (analyzeAsset apiKey inp) = Throw e)
  \/ exists key parts,
       apiKey = Some key /\ key <> ""
       /\ snd (buildParts inp) = Return parts
       /\ analyzeAsset apiKey inp
          = prepend (fst (buildParts inp)) (requester parts).
Proof.
  unfold GeminiService.analyzeAsset.
  destruct apiKey as [[|c key]|]; [left; reflexivity | | left; reflexivity].
  unfold ioBind. destruct (snd (buildParts inp)) as [parts|e] eqn:B.
  - right. right. exists (String c key), parts.
    repeat split. discriminate.
  - right. left. split; [reflexivity|]. exists e. split; reflexivity.
Qed.

Lemma requests_of_reads (tr : list effect) :
  forallb isRead tr = true -> requests tr = [].
Proof.
  induction tr as [|e tr IH]; [reflexivity|].
  cbn [forallb]. intros H. apply andb_prop in H. destruct H as [He Ht].
  destruct e; try discriminate; cbn; apply IH, Ht.
Qed.

Lemma buildParts_reads (inp : input) :
  forallb isRead (fst (buildParts inp)) = true
  /\ List.length (fst (buildParts inp)) <= 1.
Proof.
  destruct (buildParts_trace inp) as [->|(f & _ & [->| ->])];
    split; cbn; try reflexivity; lia.
Qed.

(** X7. [analyzeAsset] sends a request only when the API key is
    set and the normalizer has produced a payload, and then every request
    of the run, at most five, carries that same payload. *)
Theorem requests_need_key_and_payload (apiKey : option string) (inp : input) :
  requests (fst (analyzeAsset apiKey inp)) <> [] ->
  exists key parts k,
    apiKey = Some key /\ key <> ""
    /\ snd (buildParts inp) = Return parts
    /\ k <= 4
    /\ requests (fst (analyzeAsset apiKey inp)) = repeat parts (S k).
Proof.
  intros H.
  destruct (analyzeAsset_trace apiKey inp)
    as [E|[[E _]|(key & parts & K & Kn & B & E)]].
  - rewrite E in H. contradiction.
  - rewrite E, requests_of_reads in H by apply buildParts_reads.
    contradiction.
  - destruct (loop_shape JSON_parse generateContent parts 5 0 4000%N 0 eq_refl)
      as (k & Hk & Hr & _).
    exists key, parts, k. repeat split; try assumption.
    rewrite E. cbn [fst prepend].
    rewrite requests_app, requests_of_reads by apply buildParts_reads.
    exact Hr.
Qed.

(** X8. In every run of [analyzeAsset] the trace is at most one
    read of the input file followed by effects that are no reads: the file
    is read at most once, before any request, and a URL is never read. *)
Theorem file_is_read_at_most_once_and_first (apiKey : option string) (inp : input) :
  exists rd rest,
    fst (analyzeAsset apiKey inp) = (rd ++ rest)%list
    /\ existsb isRead rest = false
    /\ (rd = []
        \/ exists f, inp = FileInput f
             /\ (rd = [ReadAsText f] \/ rd = [ReadAsDataURL f])).
Proof.
  destruct (analyzeAsset_trace apiKey inp)
    as [E|[[E _]|(key & parts & K & Kn & B & E)]].
  - exists [], []. rewrite E. repeat split. left. reflexivity.
  - exists (fst (buildParts inp)), []. rewrite E, app_nil_r.
    repeat split. apply buildParts_trace.
  - exists (fst (buildParts inp)), (fst (requester parts)).
    rewrite E. repeat split; [|apply buildParts_trace].
    destruct (loop_shape JSON_parse generateContent parts 5 0 4000%N 0 eq_refl)
      as (k & _ & _ & _ & Hd).
    exact Hd.
Qed.

(** X9. When the API key is set and the read of a text-like or
    supported binary file fails, [analyzeAsset] throws the reader's error
    after that one read and sends no request. *)
Theorem failed_read_sends_no_request (key : string) (f : Web.File) :
  key <> "" ->
  Web.bytes f = None ->
  isTextLike f = true \/ isSupportedMimeType (Web.type f) = true ->
  analyzeAsset (Some key) (FileInput f)
  = ([if isTextLike f then ReadAsText f else ReadAsDataURL f],
     Throw Web.readError).
Proof.
  intros K B H. unfold GeminiService.analyzeAsset.
  destruct key as [|c key]; [congruence|].
  unfold buildParts, fileToText, fileToBase64. rewrite B.
  destruct (isTextLike f); [reflexivity|].
  destruct H as [H|H]; [discriminate|]. rewrite H. reflexivity.
Qed.

(** X10. For a URL and a set API key, nothing is read and every
    request of the run carries one and the same text part, which contains
    the URL as typed. *)
Theorem url_run_sends_one_text_part (key url : string) :
  key <> "" ->
  Str.includes (urlPrompt url) url = true
  /\ existsb isRead (fst (analyzeAsset (Some key) (Url url))) = false
  /\ exists k,
       k <= 4
       /\ requests (fst (analyzeAsset (Some key) (Url url)))
          = repeat [TextPart (urlPrompt url)] (S k).
Proof.
  intros K. split.
  { unfold urlPrompt. apply includes_app_l, includes_prefix, prefix_app. }
  unfold GeminiService.analyzeAsset. destruct key as [|c key]; [congruence|].
  destruct (loop_shape JSON_parse generateContent [TextPart (urlPrompt url)]
              5 0 4000%N 0 eq_refl) as (k & Hk & Hr & _ & Hd).
  split; [exact Hd|]. exists k. split; [exact Hk | exact Hr].
Qed.

End AnalyzeFacts.

Lemma requests_need_key_witness :
  exists key parts k,
    Some "key" = Some key /\ key <> ""
    /\ snd (GeminiService.buildParts (GeminiService.FileInput Sample.png))
       = Return parts
    /\ k <= 4
    /\ requests
         (fst (GeminiService.analyzeAsset JSON.parse (Sample.failing 1)
                 (Some "key") (GeminiService.FileInput Sample.png)))
       = repeat parts (S k).
Proof.
  refine (requests_need_key_and_payload JSON.parse (Sample.failing 1)
            (Some "key") (GeminiService.FileInput Sample.png) _).
  discriminate.
Defined.

Lemma failed_read_witness :
  GeminiService.analyzeAsset JSON.parse (Sample.failing 0) (Some "key")
    (GeminiService.FileInput Sample.unreadableText)
  = ([ReadAsText Sample.unreadableText], Throw Web.readError).
Proof.
  refine (failed_read_sends_no_request JSON.parse (Sample.failing 0) "key"
            Sample.unreadableText _ eq_refl (or_introl eq_refl)).
  discriminate.
Defined.

Lemma url_run_witness :
  existsb isRead
    (fst (GeminiService.analyzeAsset JSON.parse (Sample.failing 3)
            (Some "key") (GeminiService.Url "https://example.org/a")))
  = false.
Proof.
  refine (proj1 (proj2 (url_run_sends_one_text_part JSON.parse
                          (Sample.failing 3) "key" "https://example.org/a" _))).
  discriminate.
Defined.

(** ** More of the normalizer *)

Section MoreNormalizerFacts.

Import GeminiService.

(** X11. A file that is text-like, by its MIME type or by its
    name, whatever its MIME type otherwise, is read as text once and sent
    as exactly one text part, which contains the whole text read: the
    bytes of the file as [readAsText] decodes them, without the byte order
    mark and with U+FFFD for what is ill-formed. *)
Theorem text_like_file_is_sent_as_text (f : Web.File) (bs : list Byte.byte) :
  isTextLike f = true ->
  Web.bytes f = Some bs ->
  buildParts (FileInput f)
  = ([ReadAsText f], Return [TextPart (textPrompt (Web.text bs))])
  /\ Str.includes (textPrompt (Web.text bs)) (Web.text bs) = true.
Proof.
  intros T B. split.
  - unfold buildParts, fileToText. rewrite T, B. reflexivity.
  - unfold textPrompt. do 3 apply includes_app_l.
    apply includes_prefix. rewrite <- (prefix_app (Web.text bs) "").
    f_equal. clear. induction (Web.text bs) as [|c s IH]; [reflexivity|].
    simpl. now rewrite <- IH.
Qed.

Lemma text_like_witness :
  Web.text [Byte.xef; Byte.xbb; Byte.xbf; Byte.x68; Byte.x69; Byte.xff]
  = "hi" ++ String "239" (String "191" (String "189" ""))
  /\ Web.text [Byte.x89; Byte.x50; Byte.x4e]
     = String "239" (String "191" (String "189" "PN"))
  /\ buildParts (FileInput Sample2.markedText)
     = ([ReadAsText Sample2.markedText],
        Return [TextPart
                  (textPrompt
                     ("hi" ++ String "239" (String "191" (String "189" ""))))]).
Proof.
  split; [reflexivity|]. split; [reflexivity|].
  exact (proj1 (text_like_file_is_sent_as_text Sample2.markedText
                  [Byte.xef; Byte.xbb; Byte.xbf; Byte.x68; Byte.x69; Byte.xff]
                  eq_refl eq_refl)).
Defined.

(** X12. Every payload the normalizer produces is one text part, or a
    binary part followed by one text part; the binary part appears only
    for a file that is not text-like and has a supported MIME type, and
    carries that MIME type. *)
Theorem payload_is_text_or_binary_then_text (inp : input) (parts : list part) :
  snd (buildParts inp) = Return parts ->
  (exists text, parts = [TextPart text])
  \/ (exists f data text,
        inp = FileInput f
        /\ isTextLike f = false
        /\ isSupportedMimeType (Web.type f) = true
        /\ parts = [InlineData (Web.type f) data; TextPart text]).
Proof.
  destruct inp as [url|f]; cbn [buildParts].
  - intros [= <-]. left. eexists. reflexivity.
  - unfold fileToText, fileToBase64.
    destruct (isTextLike f) eqn:T;
      [|destruct (isSupportedMimeType (Web.type f)) eqn:Hs].
    + destruct (Web.bytes f); cbn; intros [= <-].
      left. eexists. reflexivity.
    + destruct (Web.bytes f); cbn; intros [= <-].
      right. exists f. do 2 eexists. repeat split; assumption.
    + cbn. intros [= <-]. left. eexists. reflexivity.
Qed.

Lemma payload_shape_witness :
  (exists text, [InlineData "image/png" (Some "iVBO");
                 TextPart (binaryPrompt "image/png")] = [TextPart text])
  \/ (exists f data text,
        FileInput Sample.png = FileInput f
        /\ isTextLike f = false
        /\ isSupportedMimeType (Web.type f) = true
        /\ [InlineData "image/png" (Some "iVBO");
            TextPart (binaryPrompt "image/png")]
           = [InlineData (Web.type f) data; TextPart text]).
Proof.
  exact (payload_is_text_or_binary_then_text (FileInput Sample.png) _ eq_refl).
Defined.

(** X13. [fileToBase64] returns the piece of the data URL between its
    first and second comma: for a file whose MIME type holds one comma
    that is the end of the MIME type with [;base64], not the base64 of the
    bytes. *)
Theorem fileToBase64_takes_the_second_piece
    (f : Web.File) (bs : list Byte.byte) (a b : string) :
  Web.bytes f = Some bs ->
  Web.type f = a ++ "," ++ b ->
  Str.includes a "," = false ->
  Str.includes b "," = false ->
  fileToBase64 f = ([ReadAsDataURL f], Return (Some (b ++ ";base64"))).
Proof.
  intros B T Ha Hb. unfold fileToBase64. rewrite B. cbn [ioBind ioDo ioRet fst snd app].
  unfold Web.dataURL. rewrite T.
  replace ("data:" ++ (a ++ "," ++ b) ++ ";base64," ++ Web.base64 bs)
    with (("data:" ++ a)
            ++ String "," ((b ++ ";base64") ++ String "," (Web.base64 bs))).
  - rewrite split_at_first_separator.
    + rewrite split_at_first_separator; [reflexivity|].
      change ";base64" with (";base64" ++ "").
      rewrite includes_char_app, Hb. reflexivity.
    + change "data:" with ("data:" ++ "").
      rewrite !includes_char_app, Ha. reflexivity.
  - rewrite !string_app_assoc. reflexivity.
Qed.

Lemma fileToBase64_witness :
  fileToBase64 Sample2.commaType
  = ([ReadAsDataURL Sample2.commaType], Return (Some "b;base64")).
Proof.
  exact (fileToBase64_takes_the_second_piece Sample2.commaType
           [Byte.x89; Byte.x50; Byte.x4e] "image/a" "b"
           eq_refl eq_refl eq_refl eq_refl).
Defined.

End MoreNormalizerFacts.

(** ** More of the controller *)

Section MoreControllerFacts.

Import GeminiService App.

(** X15. On the page of [src/App.tsx], in every reachable state at
    most one call of [analyzeAsset] is in flight; one is in flight only
    while the state is [SCANNING], and then no report is held. *)
Theorem at_most_one_scan_in_flight (c : config) :
  reachable c ->
  pending c <= 1
  /\ (pending c = 1 ->
      appState (st c) = SCANNING /\ JS.truthy (report (st c)) = false)
  /\ (appState (st c) <> SCANNING -> pending c = 0).
Proof.
  intros H. destruct (reachable_holds c H) as (P1 & P2 & _).
  repeat split; try assumption; try (apply P2; assumption).
  intros N. destruct (pending c) as [|[|p]]; [reflexivity | | lia].
  destruct P2 as [E _]; [reflexivity | contradiction].
Qed.

Lemma at_most_one_scan_witness : pending (run Page.startedScan start) <= 1.
Proof.
  exact (proj1 (at_most_one_scan_in_flight
                  (run Page.startedScan start)
                  (allowed_reachable Page.startedScan start reachable_start
                     eq_refl))).
Defined.

Lemma reachable_error (c : config) :
  reachable c ->
  (appState (st c) = ERROR -> error (st c) = Some scanFailed)
  /\ (appState (st c) <> ERROR -> error (st c) = None).
Proof.
  induction 1 as [|c ev Hc [IE IN] En]; [split; [discriminate | reflexivity]|].
  destruct (reachable_holds c Hc) as (P1 & P2 & R & I & E).
  destruct c as [[a m f u r e] p l].
  cbn [st pending appState report error] in *.
  destruct ev as [files|url|mode| | | |outcome];
    cbn [handle enabled st pending appState report error] in *.
  - unfold handleFileChange.
    destruct files as [[|g rest]|]; cbn [fst]; try tauto.
    destruct (N.ltb _ _); cbn [fst setFile appState error]; tauto.
  - cbn [setUrlInput appState error]. tauto.
  - cbn [navButton setUrlInput setFile setInputMode appState error]. tauto.
  - unfold startScan. destruct (currentAsset _); cbn [fst]; [|tauto].
    cbn [setError setAppState appState error].
    split; [discriminate | reflexivity].
  - unfold onScanComplete. cbn [report].
    destruct (JS.truthy r) eqn:T; cbn [setAppState appState error]; [|tauto].
    split; [discriminate|]. intros _. apply IN. intros ->.
    specialize (E eq_refl). congruence.
  - cbn [resetApp setError setReport setUrlInput setFile setAppState
           appState error].
    split; [discriminate | reflexivity].
  - destruct outcome as [data|err];
      cbn [startScanSettled fst setReport setError setAppState appState error];
      [tauto|]. split; [reflexivity | congruence].
Qed.

(** X16. On the page of [src/App.tsx] a failed scan is a dead end:
    in every reachable [ERROR] state the error message is set, so the page
    shows no block at all, neither the message nor the reset button, and
    no event the page can raise changes the state. *)
Theorem failed_scan_is_a_dead_end (c : config) :
  reachable c ->
  appState (st c) = ERROR ->
  error (st c) = Some scanFailed
  /\ Page.view (st c) = Page.Blank
  /\ forall ev, enabled ev c = true -> st (handle ev c) = st c.
Proof.
  intros Hc He.
  destruct (reachable_error c Hc) as [IE _]. specialize (IE He).
  destruct (reachable_holds c Hc) as (P1 & P2 & _ & _ & E).
  specialize (E He).
  assert (P0 : pending c = 0).
  { destruct (pending c) as [|[|p]]; [reflexivity | | lia].
    destruct P2 as [S _]; [reflexivity | congruence]. }
  split; [exact IE|]. split.
  - unfold Page.view. rewrite He, IE. reflexivity.
  - intros ev En. destruct ev; cbn [enabled handle st] in *.
    1-4: rewrite He in En; discriminate.
    + unfold onScanComplete. now rewrite E.
    + rewrite He, IE in En. discriminate.
    + rewrite P0 in En. discriminate.
Qed.

Lemma failed_scan_witness :
  Page.view (st (run Page.failedScan start)) = Page.Blank.
Proof.
  exact (proj1 (proj2 (failed_scan_is_a_dead_end
           (run Page.failedScan start)
           (allowed_reachable Page.failedScan start reachable_start eq_refl)
           eq_refl))).
Defined.

(** X17. On the page of [src/App.tsx] every reachable state shows
    the block of its application state and no error text: the idle screen
    without banner, the scan animation, the report view with the stored
    report in [REPORT_READY], and nothing in [ERROR]; the banner of the
    idle screen and the error screen with its reset button are never
    shown. *)
Theorem reachable_screens (c : config) :
  reachable c ->
  Page.view (st c)
  = match appState (st c) with
    | IDLE =>
        Page.IdleScreen
          (match currentAsset (st c) with None => true | Some _ => false end)
          None
    | SCANNING => Page.ScanScreen
    | REPORT_READY => Page.ReportScreen (report (st c))
    | ERROR => Page.Blank
    end.
Proof.
  intros Hc. destruct (reachable_error c Hc) as [IE IN].
  destruct (reachable_holds c Hc) as (_ & _ & R & _).
  unfold Page.view. destruct (appState (st c)) eqn:A.
  - rewrite IN by discriminate. reflexivity.
  - reflexivity.
  - rewrite R by reflexivity. reflexivity.
  - rewrite IE by reflexivity. reflexivity.
Qed.

Lemma reachable_screens_witness :
  Page.view (st (run Sample.fullScan start))
  = Page.ReportScreen Sample.minimalReport.
Proof.
  exact (reachable_screens (run Sample.fullScan start)
           (allowed_reachable Sample.fullScan start reachable_start eq_refl)).
Defined.

(** X18. On the page of [src/App.tsx], whenever the reset is
    offered, it leaves the initial state but for the input mode, with no
    call of [analyzeAsset] in flight. *)
Theorem reset_returns_to_a_clean_page (c : config) :
  reachable c ->
  enabled ResetClicked c = true ->
  st (handle ResetClicked c) = setInputMode (inputMode (st c)) initial
  /\ pending (handle ResetClicked c) = 0.
Proof.
  intros Hc En. split; [reflexivity|].
  destruct (reachable_holds c Hc) as (P1 & P2 & _).
  cbn [handle pending enabled] in *.
  destruct (pending c) as [|[|p]]; [reflexivity | | lia].
  destruct P2 as [S _]; [reflexivity|]. rewrite S in En. discriminate.
Qed.

Lemma reset_witness :
  st (handle ResetClicked (run Sample.fullScan start)) = initial.
Proof.
  exact (proj1 (reset_returns_to_a_clean_page (run Sample.fullScan start)
           (allowed_reachable Sample.fullScan start reachable_start eq_refl)
           eq_refl)).
Defined.

Lemma forensic_report_is_truthy (data : jsval) :
  Types.isForensicReport data = true -> JS.truthy data = true.
Proof. destruct data; try discriminate. reflexivity. Qed.

(** What the page offers for sure is among what it lets happen. *)
Lemma offered_enabled (ev : event) (c : config) :
  Page.offered ev c = true -> enabled ev c = true.
Proof.
  destruct c as [[a m f u r e] p l].
  destruct ev; cbn [Page.offered enabled st appState inputMode report error];
    destruct a; cbn [andb]; try discriminate; try reflexivity;
    try (intros H; exact H).
  - apply forensic_report_is_truthy.
  - unfold Page.errorSet. destruct e as [msg|]; [|reflexivity].
    destruct (String.eqb msg ""); [reflexivity | discriminate].
Qed.

(** X19. For every file of at most 50 MiB and every report that has the
    fields of [ForensicReport], each of its declared type, which the
    report view renders: choosing the file, starting the scan, the report
    arriving, the animation ending and the reset are each offered in turn
    by the page of [src/App.tsx]; [analyzeAsset] is called once, with that
    file; the report is shown before the reset; and after it the
    controller is back in its initial state with nothing in flight. *)
Theorem one_scan_cycle (f : Web.File) (data : jsval) :
  (Web.size f <= maxFileSize)%N ->
  Types.isForensicReport data = true ->
  Page.possible (Page.cycle f data) start = true
  /\ Page.view (st (run (firstn 4 (Page.cycle f data)) start))
     = Page.ReportScreen data
  /\ log (run (Page.cycle f data) start) = [CallAnalyzeAsset (FileInput f)]
  /\ st (run (Page.cycle f data) start) = initial
  /\ pending (run (Page.cycle f data) start) = 0.
Proof.
  intros Hs Hr. pose proof (forensic_report_is_truthy data Hr) as Hd.
  apply N.ltb_ge in Hs.
  unfold Page.cycle, Page.view, run, Page.possible, handle, Page.offered,
    handleFileChange.
  cbn [fold_left firstn st start]. rewrite Hs.
  cbn [fst snd st pending log appState report error initial setFile startScan
         currentAsset inputMode file option_map setError setAppState
         startScanSettled setReport onScanComplete rev app filter isCall
         List.length Nat.add Nat.ltb Nat.leb Nat.pred andb negb resetApp
         setUrlInput].
  rewrite !onScanComplete_with_report by exact Hd.
  cbn [setAppState setReport setError setFile appState report error initial
         resetApp setUrlInput andb log start].
  rewrite Hd, Hr. repeat split.
Qed.

Lemma one_scan_cycle_witness :
  Page.possible (Page.cycle Sample.png Sample2.fullReport) start = true
  /\ st (run (Page.cycle Sample.png Sample2.fullReport) start) = initial.
Proof.
  split.
  - refine (proj1 (one_scan_cycle Sample.png Sample2.fullReport _ eq_refl)).
    discriminate.
  - refine (proj1 (proj2 (proj2 (proj2
              (one_scan_cycle Sample.png Sample2.fullReport _ eq_refl))))).
    discriminate.
Defined.

(** X20. When an oversized file is refused while another file is
    the current one, that other file stays current: the next scan in file
    mode hands it to [analyzeAsset]. *)
Theorem refused_file_leaves_the_previous_one
    (s : state) (old big : Web.File) (others : list Web.File) :
  file s = Some old ->
  inputMode s = FileMode ->
  (maxFileSize < Web.size big)%N ->
  startScan (fst (handleFileChange (Some (big :: others)) s))
  = (setError None (setAppState SCANNING s),
     [CallAnalyzeAsset (FileInput old)]).
Proof.
  intros F M B. apply N.ltb_lt in B.
  unfold handleFileChange. rewrite B. cbn [fst].
  unfold startScan, currentAsset. rewrite M, F. reflexivity.
Qed.

Lemma refused_file_witness :
  startScan (fst (handleFileChange (Some [Sample.oversized])
                    (st (run [FilesChosen (Some [Sample.png])] start))))
  = (setError None
       (setAppState SCANNING (st (run [FilesChosen (Some [Sample.png])] start))),
     [CallAnalyzeAsset (FileInput Sample.png)]).
Proof.
  exact (refused_file_leaves_the_previous_one
           (st (run [FilesChosen (Some [Sample.png])] start))
           Sample.png Sample.oversized [] eq_refl eq_refl eq_refl).
Defined.

Lemma handle_urls (ev : event) (c : config) :
  Forall (fun u => u <> "") (Page.urlsSubmitted c) ->
  Forall (fun u => u <> "") (Page.urlsSubmitted (handle ev c)).
Proof.
  intros H. destruct c as [s p l]. unfold Page.urlsSubmitted in *.
  cbn [log] in H.
  destruct ev as [files|url|mode| | | |outcome]; cbn [handle log st];
    try exact H.
  - unfold handleFileChange.
    destruct files as [[|g rest]|]; cbn [snd rev app]; try exact H.
    destruct (N.ltb _ _); cbn [snd rev app flat_map]; exact H.
  - unfold startScan, currentAsset.
    destruct (inputMode s);
      [destruct (file s) | destruct (String.eqb (urlInput s) "") eqn:E];
      cbn [option_map snd rev app flat_map]; try exact H.
    constructor; [|exact H]. now apply String.eqb_neq.
  - destruct outcome; cbn [startScanSettled snd rev app flat_map]; exact H.
Qed.

(** X21. Whatever the events, every URL the controller hands to
    [analyzeAsset] is a non-empty string. *)
Theorem submitted_urls_are_not_empty (evs : list event) :
  Forall (fun u => u <> "") (Page.urlsSubmitted (run evs start)).
Proof.
  assert (G : forall c, Forall (fun u => u <> "") (Page.urlsSubmitted c) ->
                Forall (fun u => u <> "") (Page.urlsSubmitted (run evs c))).
  { induction evs as [|ev evs IH]; intros c H; [exact H|].
    apply IH, handle_urls, H. }
  apply G. constructor.
Qed.

End MoreControllerFacts.

(** ** The scan animation *)

Section AnimationFacts.

Import ScanVisualization.

Lemma mapiFrom_untouched (w : ScanStep -> ScanStep) (index : nat) :
  forall (xs : list ScanStep) (i : nat),
    index < i ->
    mapiFrom (fun s j => if Nat.eqb j index then w s else s) i xs = xs.
Proof.
  induction xs as [|x xs IH]; intros i H; [reflexivity|].
  cbn [mapiFrom]. rewrite IH by lia.
  destruct (Nat.eqb_spec i index); [lia | reflexivity].
Qed.

Lemma mapiFrom_at (w : ScanStep -> ScanStep) (x : ScanStep) (after : list ScanStep) :
  forall (before : list ScanStep) (i index : nat),
    index = i + List.length before ->
    mapiFrom (fun s j => if Nat.eqb j index then w s else s) i
      (before ++ x :: after)%list
    = (before ++ w x :: after)%list.
Proof.
  induction before as [|b before IH]; intros i index H; cbn [app mapiFrom].
  - cbn in H. rewrite Nat.add_0_r in H. subst index.
    rewrite Nat.eqb_refl, mapiFrom_untouched by lia. reflexivity.
  - cbn [List.length] in H.
    destruct (Nat.eqb_spec i index); [lia|].
    rewrite (IH (S i) index) by lia. reflexivity.
Qed.

Lemma setStatusAt_at (st : Status) (before : list ScanStep) x after :
  setStatusAt (List.length before) st (before ++ x :: after)%list
  = (before ++ withStatus st x :: after)%list.
Proof. apply mapiFrom_at. reflexivity. Qed.

Lemma effect_at (done rest : list ScanStep) :
  effect (mkState (done ++ rest)%list (List.length done))
  = (mkState (done ++ activate rest)%list (List.length done),
     match rest with [] => OnComplete 800 | _ :: _ => StepTimer end).
Proof.
  unfold effect. cbn [steps currentStepIndex].
  destruct rest as [|x rest]; cbn [activate].
  - rewrite !app_nil_r, Nat.leb_refl. reflexivity.
  - rewrite length_app. cbn [List.length].
    destruct (Nat.leb_spec (List.length done + S (List.length rest))
                (List.length done)); [lia|].
    rewrite setStatusAt_at. reflexivity.
Qed.

(** The state and the timer after [length done] step timers, by induction
    on [done] from its end. *)
Lemma after_done (done rest : list ScanStep) :
  after (List.length done) (done ++ rest)%list
  = (mkState (map (withStatus Complete) done ++ activate rest)%list
             (List.length done),
     match rest with [] => OnComplete 800 | _ :: _ => StepTimer end).
Proof.
  revert rest. induction done as [|x done IH] using rev_ind; intros rest.
  - exact (effect_at [] rest).
  - rewrite length_app, Nat.add_comm, <- app_assoc. cbn [List.length Nat.add app].
    change (after (S (List.length done)) (done ++ x :: rest)%list)
      with (tick (fst (after (List.length done) (done ++ x :: rest)%list))).
    rewrite IH.
    cbn [fst activate]. unfold tick, stepTimerFired.
    cbn [steps currentStepIndex].
    rewrite <- (length_map (withStatus Complete) done) at 1.
    rewrite setStatusAt_at, map_app. cbn [map].
    replace (S (List.length done))
      with (List.length (map (withStatus Complete) done
                           ++ [withStatus Complete (withStatus Active x)])%list)
      by (rewrite length_app, length_map; cbn; lia).
    rewrite <- effect_at, <- app_assoc. reflexivity.
Qed.

(** X22. For every list of steps, after as many step timers as
    there are steps in [done], the steps of [done] are complete, the next
    step, if any, is active and the others are as they were, with their
    ids and labels; the effect has set the timer of [onComplete], 800 ms,
    exactly when no step is left, and a step timer otherwise. *)
Theorem animation_progress (done rest : list ScanStep) :
  after (List.length done) (done ++ rest)%list
  = (mkState (map (withStatus Complete) done ++ activate rest)%list
             (List.length done),
     match rest with [] => OnComplete 800 | _ :: _ => StepTimer end).
Proof.
  exact (after_done done rest).
Qed.

(** X23. The animation of the page, mounted with its six steps, sets a
    step timer after each of the first six effects and the timer of
    [onComplete], 800 ms, after the sixth step timer has fired, when all
    six steps are complete: completion is signalled once every step is
    complete, and not before. *)
Theorem completion_after_all_six_steps :
  (forall k, k < 6 -> snd (after k STEPS) = StepTimer)
  /\ snd (after 6 STEPS) = OnComplete 800
  /\ map status (steps (fst (after 6 STEPS))) = repeat Complete 6
  /\ map id (steps (fst (after 6 STEPS))) = map id STEPS.
Proof.
  split.
  - intros k Hk.
    rewrite <- (firstn_skipn k STEPS) at 1.
    replace k with (List.length (firstn k STEPS)) at 1
      by (rewrite length_firstn; cbn; lia).
    rewrite after_done. cbn [snd].
    do 6 (destruct k as [|k]; [reflexivity|]). lia.
  - assert (E : after 6 STEPS
                 = (mkState (map (withStatus Complete) STEPS) 6,
                    OnComplete 800))
      by exact (after_done STEPS []).
    rewrite E. repeat split.
Qed.

(** X24. Running the effect again in a state the animation has
    reached, as every render of the page with a new [onComplete] does,
    leaves the steps as they are and sets the same timer: once all steps
    are complete, each such render sets the timer of [onComplete]
    again. *)
Theorem effect_rerun_changes_nothing (done rest : list ScanStep) :
  effect (fst (after (List.length done) (done ++ rest)%list))
  = after (List.length done) (done ++ rest)%list.
Proof.
  rewrite after_done. cbn [fst].
  pose proof (effect_at (map (withStatus Complete) done) (activate rest)) as E.
  rewrite length_map in E. rewrite E. destruct rest; reflexivity.
Qed.

End AnimationFacts.

(** ** The report view *)

Section ReportViewFacts.

Import GeminiService App.

Lemma keyEvidence_of_array (report : jsval) (items : list jsval) :
  JS.getOpt report "key_evidence" = JArr items ->
  ReportView.keyEvidence report = Return items.
Proof.
  intros H. unfold ReportView.keyEvidence.
  assert (N : JS.nullish report = false).
  { destruct (JS.nullish report) eqn:E; [|reflexivity].
    rewrite (getOpt_nullish _ _ E) in H. discriminate. }
  rewrite (get_getOpt _ _ N), H. reflexivity.
Qed.

(** X25. A report, a truthy value, whose key_evidence is not an
    array, as the requester lets through, is stored and shown like any
    other: the page reaches the report view with it, and there the first
    list of the view, [report.key_evidence.map], throws a TypeError.  With
    an array the list has the items of the array. *)
Theorem report_without_key_evidence_breaks_the_view
    (f : Web.File) (report : jsval) :
  (Web.size f <= maxFileSize)%N ->
  JS.truthy report = true ->
  allowed (ReportView.scanOf f report) start = true
  /\ Page.view (st (run (ReportView.scanOf f report) start))
     = Page.ReportScreen report
  /\ ((forall items, JS.getOpt report "key_evidence" <> JArr items) ->
      exists message,
        ReportView.keyEvidence report = Throw (JError "TypeError" message []))
  /\ (forall items,
        JS.getOpt report "key_evidence" = JArr items ->
        ReportView.keyEvidence report = Return items).
Proof.
  intros Hs Hd. apply N.ltb_ge in Hs.
  assert (N : JS.nullish report = false) by (destruct report; try discriminate; reflexivity).
  repeat split.
  - unfold ReportView.scanOf, allowed, handle, enabled, handleFileChange.
    cbn [st start]. rewrite Hs. reflexivity.
  - unfold ReportView.scanOf, Page.view, run, handle, handleFileChange.
    cbn [fold_left st start]. rewrite Hs.
    cbn [fst snd st initial setFile startScan currentAsset inputMode file
           option_map startScanSettled].
    rewrite onScanComplete_with_report by exact Hd.
    cbn [setAppState setReport appState App.report]. now rewrite Hd.
  - intros H. unfold ReportView.keyEvidence. rewrite (get_getOpt _ _ N).
    cbn [bind]. specialize (H).
    destruct (JS.getOpt report "key_evidence") eqn:K;
      cbn [ReportView.mapItems JS.TypeError_read];
      try (eexists; reflexivity).
    exfalso. exact (H items eq_refl).
  - apply keyEvidence_of_array.
Qed.

Lemma report_view_witness :
  exists message,
    ReportView.keyEvidence Sample.minimalReport
    = Throw (JError "TypeError" message []).
Proof.
  refine (proj1 (proj2 (proj2 (report_without_key_evidence_breaks_the_view
            Sample.png Sample.minimalReport _ eq_refl))) _).
  - discriminate.
  - intros items. discriminate.
Defined.

End ReportViewFacts.

(** ** What the binary part holds *)

Section Base64Facts.

Import GeminiService.

Lemma index_of_char_nat (k : nat) :
  k < 64 ->
  Base64.index (Web.base64Char (N.of_nat k)) = Some (N.of_nat k).
Proof.
  intros H.
  do 64 (destruct k as [|k]; [reflexivity|]). lia.
Qed.

Lemma index_of_char (n : N) :
  (n < 64)%N -> Base64.index (Web.base64Char n) = Some n.
Proof.
  intros H. rewrite <- (N2Nat.id n). apply index_of_char_nat. lia.
Qed.

Lemma sextets (n : N) :
  (n < 16777216)%N ->
  (n / 262144 < 64
   /\ (n / 4096) mod 64 < 64
   /\ (n / 64) mod 64 < 64
   /\ n mod 64 < 64
   /\ n / 262144 * 262144 + (n / 4096) mod 64 * 4096
      + (n / 64) mod 64 * 64 + n mod 64 = n)%N.
Proof. intros H. zify. Z.to_euclidean_division_equations. lia. Qed.

Lemma octets (a b c : N) :
  (a < 256 -> b < 256 -> c < 256 ->
   let n := a * 65536 + b * 256 + c in
   n < 16777216 /\ n / 65536 = a /\ (n / 256) mod 256 = b /\ n mod 256 = c)%N.
Proof. intros Ha Hb Hc n. subst n. zify. Z.to_euclidean_division_equations. lia. Qed.

Lemma byteOf_to_N (b : Byte.byte) : Base64.byteOf (Byte.to_N b) = b.
Proof. unfold Base64.byteOf. now rewrite Byte.of_to_N. Qed.

Lemma to_N_small (b : Byte.byte) : (Byte.to_N b < 256)%N.
Proof. pose proof (Byte.to_N_bounded b). lia. Qed.

Lemma one_byte (a : N) :
  (a < 256 ->
   a * 65536 / 262144 < 64
   /\ (a * 65536 / 4096) mod 64 < 64
   /\ (a * 65536 / 262144 * 262144 + (a * 65536 / 4096) mod 64 * 4096)
      / 65536 = a)%N.
Proof. intros Ha. zify. Z.to_euclidean_division_equations. lia. Qed.

Lemma two_bytes (a b : N) :
  (a < 256 -> b < 256 ->
   let n := a * 65536 + b * 256 in
   let m := n / 262144 * 262144 + (n / 4096) mod 64 * 4096
            + (n / 64) mod 64 * 64 in
   n / 262144 < 64 /\ (n / 4096) mod 64 < 64 /\ (n / 64) mod 64 < 64
   /\ m / 65536 = a /\ (m / 256) mod 256 = b)%N.
Proof.
  intros Ha Hb n m. subst n m. zify. Z.to_euclidean_division_equations. lia.
Qed.

Lemma three_bytes (a b c : N) :
  (a < 256 -> b < 256 -> c < 256 ->
   let n := a * 65536 + b * 256 + c in
   let m := n / 262144 * 262144 + (n / 4096) mod 64 * 4096
            + (n / 64) mod 64 * 64 + n mod 64 in
   n / 262144 < 64 /\ (n / 4096) mod 64 < 64 /\ (n / 64) mod 64 < 64
   /\ n mod 64 < 64
   /\ m / 65536 = a /\ (m / 256) mod 256 = b /\ m mod 256 = c)%N.
Proof.
  intros Ha Hb Hc n m.
  destruct (octets a b c Ha Hb Hc) as (Hn & H1 & H2 & H3). fold n in Hn, H1, H2, H3.
  destruct (sextets n Hn) as (S1 & S2 & S3 & S4 & E).
  unfold m. rewrite E. repeat split; assumption.
Qed.

Lemma index_pad : Base64.index "=" = None.
Proof. reflexivity. Qed.

Lemma decode_base64 (bs : list Byte.byte) :
  Base64.decode (Web.base64 bs) = Some bs.
Proof.
  induction bs as [|a|a b|a b c rest IH] using list_ind3.
  - reflexivity.
  - destruct (one_byte _ (to_N_small a)) as (H1 & H2 & E).
    cbn [Web.base64 Base64.decode].
    rewrite (index_of_char _ H1), (index_of_char _ H2), index_pad.
    cbn [Base64.isPad Ascii.eqb Bool.eqb andb String.eqb].
    rewrite E, byteOf_to_N. reflexivity.
  - destruct (two_bytes _ _ (to_N_small a) (to_N_small b))
      as (H1 & H2 & H3 & E1 & E2).
    cbn [Web.base64 Base64.decode].
    rewrite (index_of_char _ H1), (index_of_char _ H2), (index_of_char _ H3),
      index_pad.
    cbn [Base64.isPad Ascii.eqb Bool.eqb andb String.eqb].
    rewrite E1, E2, !byteOf_to_N. reflexivity.
  - destruct (three_bytes _ _ _ (to_N_small a) (to_N_small b) (to_N_small c))
      as (H1 & H2 & H3 & H4 & E1 & E2 & E3).
    cbn [Web.base64 Base64.decode].
    rewrite (index_of_char _ H1), (index_of_char _ H2), (index_of_char _ H3),
      (index_of_char _ H4), IH.
    cbn [option_map]. rewrite E1, E2, E3, !byteOf_to_N. reflexivity.
Qed.

(** X14. For a readable file whose MIME type holds no comma,
    [fileToBase64] reads the file once and returns a text that decodes, as
    base64, to exactly the bytes of the file: what the binary part carries
    is the whole content, unaltered. *)
Theorem fileToBase64_decodes_to_the_bytes (f : Web.File) (bs : list Byte.byte) :
  Web.bytes f = Some bs ->
  Str.includes (Web.type f) "," = false ->
  exists data,
    fileToBase64 f = ([ReadAsDataURL f], Return (Some data))
    /\ Base64.decode data = Some bs.
Proof.
  intros B C. exists (Web.base64 bs). split; [|apply decode_base64].
  unfold fileToBase64. rewrite B, (dataURL_split f bs C). reflexivity.
Qed.

Lemma fileToBase64_decodes_witness :
  exists data,
    fileToBase64 Sample.png = ([ReadAsDataURL Sample.png], Return (Some data))
    /\ Base64.decode data = Some [Byte.x89; Byte.x50; Byte.x4e].
Proof.
  exact (fileToBase64_decodes_to_the_bytes Sample.png
           [Byte.x89; Byte.x50; Byte.x4e] eq_refl eq_refl).
Defined.

End Base64Facts.

(** ** The idle screen *)

Section IdleFacts.

Import GeminiService App FilePreview.

Lemma prefix_of_prefix (p q s : string) :
  String.prefix (p ++ q) s = true -> String.prefix p s = true.
Proof.
  revert s. induction p as [|c p IH]; intros s H.
  - destruct s; reflexivity.
  - destruct s as [|a s]; cbn [String.append String.prefix] in *;
      [discriminate|].
    destruct (ascii_dec c a); [apply IH; exact H | discriminate].
Qed.

Lemma prefix_first_differs (c d : ascii) (p q s : string) :
  c <> d ->
  String.prefix (String c p) s = true ->
  String.prefix (String d q) s = false.
Proof.
  intros N H. destruct s as [|a s]; cbn [String.prefix] in *;
    [discriminate|].
  destruct (ascii_dec c a) as [<-|]; [|discriminate].
  destruct (ascii_dec d c) as [E|_]; [congruence | reflexivity].
Qed.

(** X26. A chosen file whose MIME type is supported as a binary is
    previewed with the icon of its kind, never with the generic file icon:
    the image icon for [image/], the play icon for [video/] and the
    document icon for [application/pdf]. *)
Theorem supported_file_has_the_icon_of_its_kind (mime : string) :
  isSupportedMimeType mime = true ->
  iconOf mime
  = (if Str.startsWith mime "image/" then ImageIcon
     else if Str.startsWith mime "video/" then PlayCircle
     else FileText)
  /\ iconOf mime <> FileIcon.
Proof.
  unfold isSupportedMimeType, iconOf, Str.startsWith. intros H.
  destruct (String.prefix "image/" mime) eqn:I.
  - rewrite (prefix_of_prefix "image" "/" mime I). split; [reflexivity | discriminate].
  - destruct (String.prefix "video/" mime) eqn:V.
    + rewrite (prefix_first_differs "v" "i" "ideo/" "mage" mime) by
        (discriminate || exact V).
      rewrite (prefix_of_prefix "video" "/" mime V).
      split; [reflexivity | discriminate].
    + rewrite !orb_false_r in H. apply String.eqb_eq in H. subst mime.
      split; [reflexivity | discriminate].
Qed.

Lemma supported_icon_witness : iconOf "video/mp4" <> FileIcon.
Proof.
  exact (proj2 (supported_file_has_the_icon_of_its_kind "video/mp4" eq_refl)).
Defined.

(** X27. A click on a mode button empties both inputs: whatever had been
    chosen or typed, right after the click there is no asset, [startScan]
    does nothing, and on the idle screen the scan button is disabled. *)
Theorem mode_switch_needs_a_new_asset (mode : InputMode) (s : state) :
  currentAsset (navButton mode s) = None
  /\ startScan (navButton mode s) = (navButton mode s, [])
  /\ (appState s = IDLE ->
      exists banner, Page.view (navButton mode s) = Page.IdleScreen true banner).
Proof.
  assert (A : currentAsset (navButton mode s) = None)
    by (destruct s, mode; reflexivity).
  split; [exact A|]. split.
  - unfold startScan. rewrite A. reflexivity.
  - intros I. unfold Page.view.
    replace (appState (navButton mode s)) with IDLE
      by (destruct s; cbn in *; congruence).
    rewrite A. eexists. reflexivity.
Qed.

Lemma mode_switch_witness :
  exists banner,
    Page.view (navButton UrlMode (fst (handleFileChange (Some [Sample.png]) initial)))
    = Page.IdleScreen true banner.
Proof.
  exact (proj2 (proj2 (mode_switch_needs_a_new_asset UrlMode
           (fst (handleFileChange (Some [Sample.png]) initial)))) eq_refl).
Defined.

End IdleFacts.
